(** * type_list: a compile-time collection of types

    A shallow embedding of [type_list.hpp] and of the declarations of
    [main.cpp].  The header is a template metaprogram: its values are C++
    types, its functions are class templates and its results are member
    types ([::type]) or static members ([::value]).  A C++ type is a value of
    [type]; a class template is a function on such values that either yields
    its member or a [diagnostic], the translation unit being ill-formed. *)

From Stdlib Require Import String ZArith Lia Bool Arith List.
Import ListNotations.
Local Open Scope string_scope.
Local Open Scope Z_scope.

(** ** C++ types *)

(** The types a template argument can name.  [Class n args] is any class
    other than the two the header itself relies on: a class ([args = []]) or
    a class template specialisation [n<args...>], whose members are given by
    the declarations of the translation unit. *)
#[warnings="-register-all"]
Inductive type : Type :=
| Fundamental (name : string)              (* void, char, int, ...: no members *)
| integral_constant (T : type) (v : Z)     (* std::integral_constant<T, v> *)
| type_list (Types : list type)            (* type_list<Types...>, type_list.hpp:31 *)
| Class (name : string) (args : list type).

(** What a name denotes inside a class, as far as the header asks. *)
Inductive member : Type :=
| absent
| typedef (T : type)                          (* using name = T; or a nested class *)
| template (f : list type -> option type).    (* template <...> using name = ...;
                                                 None where the template-id is ill-formed *)

Definition class_decl : Type := string -> member.

Fixpoint type_eq_dec (T U : type) {struct T} : {T = U} + {T <> U}.
Proof.
  decide equality;
    try apply string_dec; try apply Z.eq_dec; apply (list_eq_dec type_eq_dec).
Defined.

(** [std::is_same_v<T, U>]: identity of types, nothing weaker. *)
Definition is_same_v (T U : type) : bool :=
  if type_eq_dec T U then true else false.

(** ** Results of instantiating a template *)

Inductive diagnostic : Type :=
| constraints_not_satisfied                   (* a requires-clause is false *)
| no_type_named (T : type) (name : string)    (* typename T::name names no type *)
| instantiation_depth_exceeded.

(** [Error n d]: the diagnostic [d] is raised [n] instantiations below the
    template-id that was written; [Error 0 d] is raised at that template-id
    itself. *)
Inductive result (A : Type) : Type :=
| Ok (a : A)
| Error (nesting : nat) (d : diagnostic).
Arguments Ok {A} a.
Arguments Error {A} nesting d.

Definition bind {A B : Type} (r : result A) (k : A -> result B) : result B :=
  match r with
  | Ok a => k a
  | Error n d => Error n d
  end.

Notation "x <- r ;; k" := (bind r (fun x => k))
  (at level 61, r at next level, right associativity).

(** The result of an instantiation made from inside a template body. *)
Definition nested {A : Type} (r : result A) : result A :=
  match r with
  | Ok a => Ok a
  | Error n d => Error (S n) d
  end.

Definition is_some {A : Type} (o : option A) : bool :=
  match o with Some _ => true | None => false end.

(** [T&&] can be formed for every type of this universe but void. *)
Definition referenceable (T : type) : bool :=
  negb (is_same_v T (Fundamental "void")).

(** ** make (type_list.hpp:82-93)

    [make Types] is [make<Types...>::type], that is [make_t<Types...>]. *)
Fixpoint make (Types : list type) : type :=
  match Types with
  | [] => type_list []                              (* make<> *)
  | T :: Ts => type_list [T; make Ts]               (* make<T, Ts...> *)
  end.

(** ** The declarations of main.cpp *)

Definition char : type := Fundamental "char".
Definition int : type := Fundamental "int".
Definition unsigned : type := Fundamental "unsigned".
Definition long_long : type := Fundamental "long long".
(** [size_t] where it is 64 bits wide (LP64). *)
Definition size_t : type := Fundamental "unsigned long".

Definition named (T : type) (name : string) : bool :=
  is_same_v T (Fundamental name).

(** [sizeof (T)] and [alignof (T)] of the types show_type_characteristics
    lists (main.cpp:39), on LP64, where the two agree. *)
Definition sizeof (T : type) : option Z :=
  if named T "char" then Some 1
  else if named T "long long" then Some 8
  else if named T "int" then Some 4
  else if named T "unsigned" then Some 4
  else None.

Definition alignof (T : type) : option Z := sizeof T.

(** [v + 1] computed in [T], where it is a constant expression. *)
Definition plus_one (T : type) (v : Z) : option Z :=
  if named T "unsigned" then Some ((v + 1) mod 2 ^ 32)
  else if named T "unsigned long" then Some ((v + 1) mod 2 ^ 64)
  else if named T "int" then (if v + 1 <? 2 ^ 31 then Some (v + 1) else None)
  else None.

(** main.cpp:10-13, 14-17, 19-24 and 45-49.  The three operations of
    [type_characteristics<TypeList>] are members of that class template and
    are named with its argument. *)
Definition main_cpp (name : string) (args : list type) : class_decl :=
  fun member =>
    if negb (String.eqb member "type") then absent
    else if String.eqb name "add_one" && Nat.eqb (length args) 0 then
      template (fun Ts =>
        match Ts with
        | [integral_constant T v] =>
            option_map (integral_constant T) (plus_one T v)
        | _ => None
        end)
    else if String.eqb name "type_characteristics::type_size"
            && Nat.eqb (length args) 1 then
      template (fun Ts =>
        match Ts with
        | [T] => option_map (integral_constant size_t) (sizeof T)
        | _ => None
        end)
    else if String.eqb name "type_characteristics::type_align"
            && Nat.eqb (length args) 1 then
      template (fun Ts =>
        match Ts with
        | [T] => option_map (integral_constant size_t) (alignof T)
        | _ => None
        end)
    else if String.eqb name "type_characteristics::max_value"
            && Nat.eqb (length args) 1 then
      template (fun Ts =>
        match Ts with
        | [integral_constant T1 v1; integral_constant T2 v2] =>
            if is_same_v T1 T2 then Some (integral_constant T1 (Z.max v1 v2))
            else None
        | _ => None
        end)
    else absent.

Definition add_one : type := Class "add_one" [].
Definition one : type := integral_constant unsigned 1.
Definition two : type := integral_constant unsigned 2.
Definition three : type := integral_constant unsigned 3.
Definition four : type := integral_constant unsigned 4.
Definition numbers : type := make [one; two; three].
Definition types : type := make [char; long_long; int; unsigned].
Definition type_size : type := Class "type_characteristics::type_size" [types].
Definition type_align : type := Class "type_characteristics::type_align" [types].
Definition max_value : type := Class "type_characteristics::max_value" [types].

(** The member types [largest] and [most_aligned] of
    [type_characteristics<TypeList>] (main.cpp:30-35), and its three
    private operations for any [TypeList]. *)
Record characteristics : Type :=
  { largest : type;
    most_aligned : type }.

Definition type_size_of (TypeList : type) : type :=
  Class "type_characteristics::type_size" [TypeList].
Definition type_align_of (TypeList : type) : type :=
  Class "type_characteristics::type_align" [TypeList].
Definition max_value_of (TypeList : type) : type :=
  Class "type_characteristics::max_value" [TypeList].

(** The greatest of [vs] and 0, taken as [max_value] takes it: the element
    first, the accumulator second. *)
Definition maximum (vs : list Z) : Z :=
  fold_left (fun accumulator v => Z.max v accumulator) vs 0.

(** ** Operations whose result is not its own member [type]

    Declarations that main.cpp does not have, for operations in the style of
    the standard type traits:
<<
    struct identity_of {
      template <typename T> using type = std::type_identity<T>;
    };
    struct twice {
      template <typename T> using type = std::pair<T, T>;
    };
    struct count {
      template <typename Element, typename Accumulator>
      using type = std::integral_constant<typename Accumulator::value_type,
                                          Accumulator::value + 1>;
    };
    struct pair_with {
      template <typename Element, typename Accumulator>
      using type = std::type_identity<std::pair<Element, Accumulator>>;
    };
>>
    [std::type_identity<T>] has the member [type], which is [T];
    [std::pair] has no member [type]. *)
Definition type_identity (T : type) : type := Class "std::type_identity" [T].
Definition pair (T U : type) : type := Class "std::pair" [T; U].
Definition identity_of : type := Class "identity_of" [].
Definition twice : type := Class "twice" [].
Definition count : type := Class "count" [].
Definition pair_with : type := Class "pair_with" [].

Definition traits (name : string) (args : list type) : class_decl :=
  fun member =>
    if negb (String.eqb member "type") then absent
    else if String.eqb name "std::type_identity" then
      match args with
      | [T] => typedef T
      | _ => absent
      end
    else if String.eqb name "identity_of" && Nat.eqb (length args) 0 then
      template (fun Ts =>
        match Ts with
        | [T] => Some (type_identity T)
        | _ => None
        end)
    else if String.eqb name "twice" && Nat.eqb (length args) 0 then
      template (fun Ts =>
        match Ts with
        | [T] => Some (pair T T)
        | _ => None
        end)
    else if String.eqb name "count" && Nat.eqb (length args) 0 then
      template (fun Ts =>
        match Ts with
        | [_; integral_constant T v] =>
            option_map (integral_constant T) (plus_one T v)
        | _ => None
        end)
    else if String.eqb name "pair_with" && Nat.eqb (length args) 0 then
      template (fun Ts =>
        match Ts with
        | [Element; Accumulator] => Some (type_identity (pair Element Accumulator))
        | _ => None
        end)
    else absent.

Section TypeList.

(** The value of the macro [__cplusplus]. *)
Variable cplusplus : Z.
(** The width of [size_t] in bits. *)
Variable size_t_bits : Z.
(** The classes declared in the translation unit, beside those of the
    header and [std::integral_constant]. *)
Variable classes : string -> list type -> class_decl.

(** Member lookup.  [type_list<>] has no members (type_list.hpp:33-34),
    [type_list<First, Rest>] has [first] and [rest] (type_list.hpp:73-77),
    and every other [type_list<...>] is incomplete (type_list.hpp:31-32). *)
Definition lookup (T : type) (name : string) : member :=
  match T with
  | Fundamental _ => absent
  | integral_constant V _ =>
      if String.eqb name "type" then typedef T
      else if String.eqb name "value_type" then typedef V
      else absent
  | type_list [First; Rest] =>
      if String.eqb name "first" then typedef First
      else if String.eqb name "rest" then typedef Rest
      else absent
  | type_list _ => absent
  | Class n args => classes n args name
  end.

(** [typename T::name], where it names a type. *)
Definition typename (T : type) (name : string) : option type :=
  match lookup T name with
  | typedef U => Some U
  | _ => None
  end.

(** [typename T::template name<args...>], where it names a type. *)
Definition typename_template (T : type) (name : string) (args : list type)
  : option type :=
  match lookup T name with
  | template f => f args
  | _ => None
  end.

(** The same in a template body, where a failure is an error. *)
Definition member_type (T : type) (name : string) : result type :=
  match typename T name with
  | Some U => Ok U
  | None => Error 0 (no_type_named T name)
  end.

Definition member_template (T : type) (name : string) (args : list type)
  : result type :=
  match typename_template T name args with
  | Some U => Ok U
  | None => Error 0 (no_type_named T name)
  end.

(** type_list.hpp:23-27. *)
Definition TYPE_LIST_CXX20REQUIRES (x : bool) : bool :=
  if 202002 <=? cplusplus then x else true.

(** ** concepts (type_list.hpp:41-59)

    A requires-expression is false where a type named in it, or in its
    parameter list, cannot be formed. *)
Definition is_type_list (T : type) : bool :=
  (is_some (typename T "first") && is_some (typename T "rest"))
  || is_same_v T (type_list []).

Definition is_unary_operation (UnaryOperation TypeList : type) : bool :=
  (referenceable UnaryOperation
   && match typename TypeList "first" with
      | Some First => is_some (typename_template UnaryOperation "type" [First])
      | None => false
      end)
  || is_same_v TypeList (type_list []).

Definition is_binary_operation (BinaryOperation TypeList InitialElement : type)
  : bool :=
  (referenceable BinaryOperation && referenceable InitialElement
   && match typename TypeList "first" with
      | Some First =>
          is_some (typename_template BinaryOperation "type" [InitialElement; First])
      | None => false
      end)
  || is_same_v TypeList (type_list []).

(** ** size (type_list.hpp:98-107)

    [size depth TypeList] is [size<TypeList>::value], that is
    [size_v<TypeList>].  The recursion follows the member [rest], which a
    class may declare as it likes, so it need not end: [depth] is the
    number of nested instantiations the compiler still allows, as for the
    operations below.  ([make] recurses on its own pack.)  The sum is made
    in [size_t]. *)
Fixpoint size (depth : nat) (TypeList : type) {struct depth} : result Z :=
  if TYPE_LIST_CXX20REQUIRES (is_type_list TypeList) then
    if is_same_v TypeList (type_list []) then Ok 0
    else
      Rest <- member_type TypeList "rest" ;;
      v <- match depth with
           | O => Error 1 instantiation_depth_exceeded
           | S d => nested (size d Rest)
           end ;;
      Ok ((1 + v) mod 2 ^ size_t_bits)
  else Error 0 constraints_not_satisfied.

(** ** contains (type_list.hpp:113-122)

    [contains<TypeList::rest, Element>::value] is named in the template
    argument, so the tail is instantiated whatever [is_same_v] gives. *)
Fixpoint contains (depth : nat) (TypeList Element : type) {struct depth}
  : result bool :=
  if TYPE_LIST_CXX20REQUIRES (is_type_list TypeList) then
    if is_same_v TypeList (type_list []) then Ok false
    else
      First <- member_type TypeList "first" ;;
      Rest <- member_type TypeList "rest" ;;
      b <- match depth with
           | O => Error 1 instantiation_depth_exceeded
           | S d => nested (contains d Rest Element)
           end ;;
      Ok (is_same_v Element First || b)
  else Error 0 constraints_not_satisfied.

(** ** equal (type_list.hpp:126-141)

    The explicit specialisation [equal<type_list<>, type_list<>>] is taken
    before the two partial ones, and those before the primary template. *)
Fixpoint equal (depth : nat) (TypeList1 TypeList2 : type) {struct depth}
  : result bool :=
  if TYPE_LIST_CXX20REQUIRES (is_type_list TypeList1 && is_type_list TypeList2)
  then
    match is_same_v TypeList1 (type_list []), is_same_v TypeList2 (type_list []) with
    | true, true => Ok true
    | false, true => Ok false
    | true, false => Ok false
    | false, false =>
        First1 <- member_type TypeList1 "first" ;;
        First2 <- member_type TypeList2 "first" ;;
        Rest1 <- member_type TypeList1 "rest" ;;
        Rest2 <- member_type TypeList2 "rest" ;;
        b <- match depth with
             | O => Error 1 instantiation_depth_exceeded
             | S d => nested (equal d Rest1 Rest2)
             end ;;
        Ok (is_same_v First1 First2 && b)
    end
  else Error 0 constraints_not_satisfied.

(** ** transform (type_list.hpp:147-160)

    [transform depth TypeList Op] is [transform<TypeList, Op>::type], that
    is [transform_t<TypeList, Op>]. *)
Fixpoint transform (depth : nat) (TypeList UnaryOperation : type) {struct depth}
  : result type :=
  if TYPE_LIST_CXX20REQUIRES
       (is_type_list TypeList && is_unary_operation UnaryOperation TypeList)
  then
    if is_same_v TypeList (type_list []) then Ok (type_list [])
    else
      First <- member_type TypeList "first" ;;
      Applied <- member_template UnaryOperation "type" [First] ;;
      Head <- member_type Applied "type" ;;
      Rest <- member_type TypeList "rest" ;;
      Tail <- match depth with
              | O => Error 1 instantiation_depth_exceeded
              | S d => nested (transform d Rest UnaryOperation)
              end ;;
      Ok (type_list [Head; Tail])
  else Error 0 constraints_not_satisfied.

(** ** fold left (type_list.hpp:167-180)

    [foldl depth TypeList Op Initial] is
    [foldl<TypeList, Op, Initial>::type]. *)
Fixpoint foldl (depth : nat) (TypeList BinaryOperation Initial : type)
  {struct depth} : result type :=
  if TYPE_LIST_CXX20REQUIRES
       (is_type_list TypeList
        && is_binary_operation BinaryOperation TypeList Initial)
  then
    if is_same_v TypeList (type_list []) then Ok Initial
    else
      Rest <- member_type TypeList "rest" ;;
      First <- member_type TypeList "first" ;;
      Accumulator <- member_type Initial "type" ;;
      Next <- member_template BinaryOperation "type" [First; Accumulator] ;;
      match depth with
      | O => Error 1 instantiation_depth_exceeded
      | S d => nested (foldl d Rest BinaryOperation Next)
      end
  else Error 0 constraints_not_satisfied.


(** ** Lists

    [chain T Ts]: [T] is a list whose elements are [Ts], in this order:
    the empty list, or a node whose [first] is the head and whose [rest] is
    a list again. *)
Inductive chain : type -> list type -> Prop :=
| chain_empty : chain (type_list []) []
| chain_node (T First Rest : type) (Ts : list type) :
    typename T "first" = Some First ->
    typename T "rest" = Some Rest ->
    chain Rest Ts ->
    chain T (First :: Ts).

Definition same_elements (Ts Us : list type) : bool :=
  if list_eq_dec type_eq_dec Ts Us then true else false.

(** [Op::template type<T>], the operation applied to [T], and
    [Op::template type<T>::type], the member [type] of that. *)
Definition applied (Op T : type) : option type :=
  typename_template Op "type" [T].

Definition applied_type (Op T : type) : option type :=
  match applied Op T with
  | Some Applied => typename Applied "type"
  | None => None
  end.

(** The transformation as the specification words it:
    transform(Empty, Op) = Empty and
    transform(node, Op) = Node(Op(node.head), transform(node.tail, Op)). *)
Fixpoint transform_as_specified (Op : type) (Ts : list type) : option type :=
  match Ts with
  | [] => Some (type_list [])
  | T :: Ts' =>
      match applied Op T, transform_as_specified Op Ts' with
      | Some Head, Some Tail => Some (type_list [Head; Tail])
      | _, _ => None
      end
  end.

(** [Op::template type<Element, Accumulator>], the operation applied to
    an element and an accumulator. *)
Definition combine (Op Element Accumulator : type) : option type :=
  typename_template Op "type" [Element; Accumulator].

(** The fold on the elements of a list, each step taking the member
    [type] of the accumulator it is given. *)
Fixpoint fold_types (Op : type) (Ts : list type) (Init : type) : option type :=
  match Ts with
  | [] => Some Init
  | T :: Ts' =>
      match typename Init "type" with
      | Some Accumulator =>
          match combine Op T Accumulator with
          | Some Next => fold_types Op Ts' Next
          | None => None
          end
      | None => None
      end
  end.

(** The fold as the specification words it:
    foldl(Empty, Op, Init) = Init and
    foldl(node, Op, Init) = foldl(node.tail, Op, Op(node.head, Init)). *)
Fixpoint foldl_as_specified (Op : type) (Ts : list type) (Init : type)
  : option type :=
  match Ts with
  | [] => Some Init
  | T :: Ts' =>
      match combine Op T Init with
      | Some Next => foldl_as_specified Op Ts' Next
      | None => None
      end
  end.

(** [tail_at T n U]: [U] is [T::rest::...::rest], taken [n] times, and
    each node on the way has a [first] and a [rest]. *)
Inductive tail_at : type -> nat -> type -> Prop :=
| tail_here (T : type) : tail_at T 0 T
| tail_next (T First Rest U : type) (n : nat) :
    typename T "first" = Some First ->
    typename T "rest" = Some Rest ->
    tail_at Rest n U ->
    tail_at T (S n) U.

(** The requires-clauses met along a fold: at each node [foldl] asks for
    [is_binary_operation] of the operation, that node and the accumulator
    it is given (type_list.hpp:168-170). *)
Fixpoint fold_checked (Op : type) (Ts : list type) (Init : type) : bool :=
  match Ts with
  | [] => true
  | T :: Ts' =>
      referenceable Op && referenceable Init
      && is_some (typename_template Op "type" [Init; T])
      && match typename Init "type" with
         | Some Accumulator =>
             match combine Op T Accumulator with
             | Some Next => fold_checked Op Ts' Next
             | None => true
             end
         | None => true
         end
  end.

(** ** type_characteristics (main.cpp:6-36)

    The member typedefs are instantiated with the class, one level below
    the template-id [type_characteristics<TypeList>]. *)
Definition type_characteristics (depth : nat) (TypeList : type)
  : result characteristics :=
  if TYPE_LIST_CXX20REQUIRES (is_type_list TypeList) then
    match depth with
    | O => Error 1 instantiation_depth_exceeded
    | S d =>
        nested
          (sizes_list <- transform d TypeList (type_size_of TypeList) ;;
           alignments_type <- transform d TypeList (type_align_of TypeList) ;;
           largest <- foldl d sizes_list (max_value_of TypeList)
                        (integral_constant size_t 0) ;;
           most_aligned <- foldl d alignments_type (max_value_of TypeList)
                             (integral_constant size_t 0) ;;
           Ok {| largest := largest; most_aligned := most_aligned |})
    end
  else Error 0 constraints_not_satisfied.

(** The translation unit declares the classes named [names] as [decls]
    does. *)
Definition declares (names : list string)
  (decls : string -> list type -> class_decl) : Prop :=
  forall name : string,
    In name names -> forall args : list type, classes name args = decls name args.

(** ** Basic facts *)

Lemma is_same_v_refl (T : type) : is_same_v T T = true.
Proof. unfold is_same_v. destruct (type_eq_dec T T); congruence. Qed.

Lemma is_same_v_true (T U : type) : is_same_v T U = true <-> T = U.
Proof.
  unfold is_same_v. destruct (type_eq_dec T U); split; congruence.
Qed.

Lemma is_same_v_false (T U : type) : is_same_v T U = false <-> T <> U.
Proof.
  unfold is_same_v. destruct (type_eq_dec T U); split; congruence.
Qed.

Lemma requires_true (x : bool) :
  x = true -> TYPE_LIST_CXX20REQUIRES x = true.
Proof. intros ->. unfold TYPE_LIST_CXX20REQUIRES. now destruct (_ <=? _). Qed.

Lemma requires_cxx20 (x : bool) :
  202002 <= cplusplus -> TYPE_LIST_CXX20REQUIRES x = x.
Proof.
  intros H. unfold TYPE_LIST_CXX20REQUIRES.
  now apply Z.leb_le in H as ->.
Qed.

Lemma member_type_some (T U : type) (name : string) :
  typename T name = Some U -> member_type T name = Ok U.
Proof. unfold member_type. now intros ->. Qed.

Lemma member_template_some (T U : type) (name : string) (args : list type) :
  typename_template T name args = Some U -> member_template T name args = Ok U.
Proof. unfold member_template. now intros ->. Qed.

Lemma node_not_empty (T First : type) :
  typename T "first" = Some First -> is_same_v T (type_list []) = false.
Proof.
  intros H. apply is_same_v_false. intros ->. discriminate H.
Qed.

Lemma node_is_type_list (T First Rest : type) :
  typename T "first" = Some First -> typename T "rest" = Some Rest ->
  is_type_list T = true.
Proof. unfold is_type_list. now intros -> ->. Qed.

Lemma empty_is_type_list : is_type_list (type_list []) = true.
Proof. reflexivity. Qed.

Lemma chain_is_type_list (T : type) (Ts : list type) :
  chain T Ts -> is_type_list T = true.
Proof.
  destruct 1; [apply empty_is_type_list | eapply node_is_type_list; eauto].
Qed.

Lemma chain_make (Ts : list type) : chain (make Ts) Ts.
Proof.
  induction Ts as [|T Ts IH]; simpl.
  - constructor.
  - now apply chain_node with (Rest := make Ts).
Qed.

(** A list has one sequence of elements. *)
Lemma chain_functional (T : type) (Ts Us : list type) :
  chain T Ts -> chain T Us -> Ts = Us.
Proof.
  intros H. revert Us.
  induction H as [|T First Rest Ts HF HR _ IH]; intros Us HU.
  - inversion HU as [|? ? ? ? HF' ? ?]; [reflexivity | discriminate HF'].
  - inversion HU as [|? F' R' Us' HF' HR' HC']; subst.
    + discriminate HF.
    + rewrite HF in HF'. rewrite HR in HR'.
      injection HF' as <-. injection HR' as <-.
      f_equal. now apply IH.
Qed.

(** ** size *)

Lemma size_node (d : nat) (T First Rest : type) :
  typename T "first" = Some First -> typename T "rest" = Some Rest ->
  size (S d) T = (v <- nested (size d Rest) ;; Ok ((1 + v) mod 2 ^ size_t_bits)).
Proof.
  intros HF HR. simpl.
  rewrite (requires_true _ (node_is_type_list _ _ _ HF HR)).
  rewrite (node_not_empty _ _ HF), (member_type_some _ _ _ HR).
  reflexivity.
Qed.

Lemma size_empty (depth : nat) : size depth (type_list []) = Ok 0.
Proof.
  destruct depth; simpl; now rewrite (requires_true _ empty_is_type_list).
Qed.

Lemma size_chain (T : type) (Ts : list type) :
  chain T Ts ->
  forall depth : nat,
    (length Ts <= depth)%nat ->
    Z.of_nat (length Ts) < 2 ^ size_t_bits ->
    size depth T = Ok (Z.of_nat (length Ts)).
Proof.
  induction 1 as [|T First Rest Ts HF HR _ IH]; intros depth Hd Hw.
  - apply size_empty.
  - cbn [List.length] in Hd, Hw |- *. rewrite Nat2Z.inj_succ in Hw |- *.
    destruct depth as [|d]; [lia|].
    rewrite (size_node _ _ _ _ HF HR), IH by lia. cbn [nested bind].
    f_equal. rewrite Z.mod_small; lia.
Qed.

(** ** contains *)

Lemma contains_empty (depth : nat) (Element : type) :
  contains depth (type_list []) Element = Ok false.
Proof.
  destruct depth; simpl; now rewrite (requires_true _ empty_is_type_list).
Qed.

Lemma contains_node (d : nat) (T First Rest Element : type) :
  typename T "first" = Some First -> typename T "rest" = Some Rest ->
  contains (S d) T Element
  = (b <- nested (contains d Rest Element) ;; Ok (is_same_v Element First || b)).
Proof.
  intros HF HR. simpl.
  rewrite (requires_true _ (node_is_type_list _ _ _ HF HR)).
  rewrite (node_not_empty _ _ HF).
  rewrite (member_type_some _ _ _ HF), (member_type_some _ _ _ HR).
  reflexivity.
Qed.

Lemma contains_chain (T : type) (Ts : list type) :
  chain T Ts ->
  forall (depth : nat) (Element : type),
    (length Ts <= depth)%nat ->
    contains depth T Element = Ok (existsb (is_same_v Element) Ts).
Proof.
  induction 1 as [|T First Rest Ts HF HR _ IH]; intros depth Element Hd.
  - apply contains_empty.
  - cbn [length] in Hd. destruct depth as [|d]; [lia|].
    rewrite (contains_node _ _ _ _ _ HF HR), IH by lia. reflexivity.
Qed.

Lemma existsb_is_same_v (Element : type) (Ts : list type) :
  existsb (is_same_v Element) Ts = true <-> In Element Ts.
Proof.
  rewrite existsb_exists. split.
  - intros (U & HU & HE). apply is_same_v_true in HE. now subst.
  - intros H. exists Element. split; [assumption | apply is_same_v_refl].
Qed.

(** ** equal *)


Lemma same_elements_true (Ts Us : list type) :
  same_elements Ts Us = true <-> Ts = Us.
Proof.
  unfold same_elements. destruct (list_eq_dec _ Ts Us); split; congruence.
Qed.

Lemma same_elements_cons (T U : type) (Ts Us : list type) :
  same_elements (T :: Ts) (U :: Us) = is_same_v T U && same_elements Ts Us.
Proof.
  unfold same_elements, is_same_v.
  destruct (type_eq_dec T U), (list_eq_dec type_eq_dec Ts Us),
    (list_eq_dec type_eq_dec (T :: Ts) (U :: Us)); simpl; congruence.
Qed.

Lemma equal_unfold (depth : nat) (TypeList1 TypeList2 : type) :
  equal depth TypeList1 TypeList2
  = if TYPE_LIST_CXX20REQUIRES (is_type_list TypeList1 && is_type_list TypeList2)
    then
      match is_same_v TypeList1 (type_list []), is_same_v TypeList2 (type_list []) with
      | true, true => Ok true
      | false, true => Ok false
      | true, false => Ok false
      | false, false =>
          First1 <- member_type TypeList1 "first" ;;
          First2 <- member_type TypeList2 "first" ;;
          Rest1 <- member_type TypeList1 "rest" ;;
          Rest2 <- member_type TypeList2 "rest" ;;
          b <- match depth with
               | O => Error 1 instantiation_depth_exceeded
               | S d => nested (equal d Rest1 Rest2)
               end ;;
          Ok (is_same_v First1 First2 && b)
      end
    else Error 0 constraints_not_satisfied.
Proof. destruct depth; reflexivity. Qed.

Lemma equal_empty_empty (depth : nat) :
  equal depth (type_list []) (type_list []) = Ok true.
Proof.
  rewrite equal_unfold, empty_is_type_list, requires_true by reflexivity.
  now rewrite is_same_v_refl.
Qed.

Lemma equal_empty_node (depth : nat) (T First Rest : type) :
  typename T "first" = Some First -> typename T "rest" = Some Rest ->
  equal depth (type_list []) T = Ok false
  /\ equal depth T (type_list []) = Ok false.
Proof.
  intros HF HR.
  pose proof (node_is_type_list _ _ _ HF HR) as HT.
  pose proof (node_not_empty _ _ HF) as HN.
  split; rewrite equal_unfold, empty_is_type_list, HT, requires_true
    by reflexivity; now rewrite is_same_v_refl, HN.
Qed.

Lemma equal_node_node (d : nat) (T1 First1 Rest1 T2 First2 Rest2 : type) :
  typename T1 "first" = Some First1 -> typename T1 "rest" = Some Rest1 ->
  typename T2 "first" = Some First2 -> typename T2 "rest" = Some Rest2 ->
  equal (S d) T1 T2
  = (b <- nested (equal d Rest1 Rest2) ;; Ok (is_same_v First1 First2 && b)).
Proof.
  intros HF1 HR1 HF2 HR2. rewrite equal_unfold.
  rewrite (node_is_type_list _ _ _ HF1 HR1), (node_is_type_list _ _ _ HF2 HR2).
  rewrite requires_true by reflexivity.
  rewrite (node_not_empty _ _ HF1), (node_not_empty _ _ HF2).
  rewrite (member_type_some _ _ _ HF1), (member_type_some _ _ _ HF2).
  rewrite (member_type_some _ _ _ HR1), (member_type_some _ _ _ HR2).
  reflexivity.
Qed.

Lemma equal_chain (A : type) (As : list type) :
  chain A As ->
  forall (B : type) (Bs : list type) (depth : nat),
    chain B Bs ->
    (Nat.min (length As) (length Bs) <= depth)%nat ->
    equal depth A B = Ok (same_elements As Bs).
Proof.
  induction 1 as [|A FA RA As HFA HRA _ IH]; intros B Bs depth HB Hd.
  - destruct HB as [|B FB RB Bs HFB HRB _].
    + apply equal_empty_empty.
    + now destruct (equal_empty_node depth _ _ _ HFB HRB) as [-> _].
  - destruct HB as [|B FB RB Bs HFB HRB HB].
    + now destruct (equal_empty_node depth _ _ _ HFA HRA) as [_ ->].
    + cbn [length] in Hd. destruct depth as [|d]; [lia|].
      rewrite (equal_node_node _ _ _ _ _ _ _ HFA HRA HFB HRB).
      rewrite (IH _ _ _ HB) by lia.
      cbn [nested bind]. now rewrite same_elements_cons.
Qed.

Lemma positionwise_identical (Ts Us : list type) :
  Ts = Us
  <-> length Ts = length Us
      /\ forall (i : nat) (T U : type),
           nth_error Ts i = Some T -> nth_error Us i = Some U -> T = U.
Proof.
  split.
  - intros <-. split; [reflexivity | congruence].
  - revert Us. induction Ts as [|T Ts IH]; intros [|U Us] [Hl Hn];
      try discriminate Hl; [reflexivity|].
    f_equal.
    + now apply (Hn 0%nat).
    + apply IH. split; [now injection Hl | intros i; apply (Hn (S i))].
Qed.

(** ** transform *)



Lemma template_referenceable (Op U : type) (name : string) (args : list type) :
  typename_template Op name args = Some U -> referenceable Op = true.
Proof.
  destruct Op; try reflexivity. discriminate.
Qed.

Lemma transform_unfold (depth : nat) (TypeList UnaryOperation : type) :
  transform depth TypeList UnaryOperation
  = if TYPE_LIST_CXX20REQUIRES
         (is_type_list TypeList && is_unary_operation UnaryOperation TypeList)
    then
      if is_same_v TypeList (type_list []) then Ok (type_list [])
      else
        First <- member_type TypeList "first" ;;
        Applied <- member_template UnaryOperation "type" [First] ;;
        Head <- member_type Applied "type" ;;
        Rest <- member_type TypeList "rest" ;;
        Tail <- match depth with
                | O => Error 1 instantiation_depth_exceeded
                | S d => nested (transform d Rest UnaryOperation)
                end ;;
        Ok (type_list [Head; Tail])
    else Error 0 constraints_not_satisfied.
Proof. destruct depth; reflexivity. Qed.

Lemma unary_operation_empty (Op : type) :
  is_unary_operation Op (type_list []) = true.
Proof. unfold is_unary_operation. rewrite is_same_v_refl. apply orb_true_r. Qed.

Lemma transform_empty (depth : nat) (Op : type) :
  transform depth (type_list []) Op = Ok (type_list []).
Proof.
  rewrite transform_unfold, empty_is_type_list, unary_operation_empty.
  now rewrite requires_true, is_same_v_refl.
Qed.

Lemma unary_operation_node (Op T First Applied : type) :
  typename T "first" = Some First -> applied Op First = Some Applied ->
  is_unary_operation Op T = true.
Proof.
  unfold is_unary_operation, applied. intros -> HA.
  now rewrite (template_referenceable _ _ _ _ HA), HA.
Qed.

Lemma transform_node (d : nat) (T First Rest Op Applied Head : type) :
  typename T "first" = Some First -> typename T "rest" = Some Rest ->
  applied Op First = Some Applied -> typename Applied "type" = Some Head ->
  transform (S d) T Op
  = (Tail <- nested (transform d Rest Op) ;; Ok (type_list [Head; Tail])).
Proof.
  intros HF HR HA HH. rewrite transform_unfold.
  rewrite (node_is_type_list _ _ _ HF HR), (unary_operation_node _ _ _ _ HF HA).
  rewrite requires_true by reflexivity.
  rewrite (node_not_empty _ _ HF), (member_type_some _ _ _ HF). cbn [bind].
  unfold applied in HA. rewrite (member_template_some _ _ _ _ HA). cbn [bind].
  rewrite (member_type_some _ _ _ HH). cbn [bind].
  now rewrite (member_type_some _ _ _ HR).
Qed.

Lemma applied_type_inv (Op T U : type) :
  applied_type Op T = Some U ->
  exists Applied : type,
    applied Op T = Some Applied /\ typename Applied "type" = Some U.
Proof.
  unfold applied_type. destruct (applied Op T) as [A|]; [|discriminate].
  intros H. now exists A.
Qed.

Lemma transform_chain (Op L : type) (Ts : list type) :
  chain L Ts ->
  forall (depth : nat) (Us : list type),
    (length Ts <= depth)%nat ->
    Forall2 (fun T U => applied_type Op T = Some U) Ts Us ->
    transform depth L Op = Ok (make Us).
Proof.
  induction 1 as [|T First Rest Ts HF HR _ IH]; intros depth Us Hd HU.
  - inversion HU. apply transform_empty.
  - inversion HU as [|? U ? Us' HU1 HU2]; subst.
    apply applied_type_inv in HU1 as (A & HA & HH).
    cbn [length] in Hd. destruct depth as [|d]; [lia|].
    rewrite (transform_node _ _ _ _ _ _ _ HF HR HA HH).
    now rewrite (IH d Us') by (assumption || lia).
Qed.

Lemma transform_inv (Op L : type) (Ts : list type) :
  chain L Ts ->
  forall (depth : nat) (L' : type),
    transform depth L Op = Ok L' ->
    exists Us : list type,
      L' = make Us /\ Forall2 (fun T U => applied_type Op T = Some U) Ts Us.
Proof.
  induction 1 as [|T First Rest Ts HF HR _ IH]; intros depth L' H.
  - rewrite transform_empty in H. injection H as <-. now exists [].
  - rewrite transform_unfold in H.
    destruct (TYPE_LIST_CXX20REQUIRES _); [|discriminate].
    rewrite (node_not_empty _ _ HF), (member_type_some _ _ _ HF) in H.
    cbn [bind] in H. unfold member_template in H.
    destruct (typename_template Op "type" [First]) as [A|] eqn:HA;
      [|discriminate].
    cbn [bind] in H. unfold member_type at 1 in H.
    destruct (typename A "type") as [Head|] eqn:HH; [|discriminate].
    rewrite (member_type_some _ _ _ HR) in H. cbn [bind] in H.
    destruct depth as [|d]; [discriminate|].
    destruct (transform d Rest Op) as [Tail|] eqn:HT; [|discriminate].
    cbn [nested bind] in H. injection H as <-.
    destruct (IH _ _ HT) as (Us & -> & HU).
    exists (Head :: Us). split; [reflexivity|].
    constructor; [|assumption].
    unfold applied_type, applied. now rewrite HA.
Qed.

(** The size of a list depends on the number of its nodes only. *)
Lemma size_same_length (L : type) (Ts : list type) :
  chain L Ts ->
  forall (L' : type) (Us : list type) (depth : nat),
    chain L' Us -> length Ts = length Us -> size depth L = size depth L'.
Proof.
  induction 1 as [|T First Rest Ts HF HR _ IH]; intros L' Us depth HU Hl.
  - destruct HU; [reflexivity | discriminate Hl].
  - destruct HU as [|T' F' R' Us HF' HR' HU]; [discriminate Hl|].
    injection Hl as Hl. destruct depth as [|d].
    + simpl.
      rewrite (requires_true _ (node_is_type_list _ _ _ HF HR)).
      rewrite (requires_true _ (node_is_type_list _ _ _ HF' HR')).
      rewrite (node_not_empty _ _ HF), (node_not_empty _ _ HF').
      now rewrite (member_type_some _ _ _ HR), (member_type_some _ _ _ HR').
    + rewrite (size_node _ _ _ _ HF HR), (size_node _ _ _ _ HF' HR').
      now rewrite (IH _ _ d HU Hl).
Qed.

(** ** foldl *)

Lemma foldl_unfold (depth : nat) (TypeList BinaryOperation Initial : type) :
  foldl depth TypeList BinaryOperation Initial
  = if TYPE_LIST_CXX20REQUIRES
         (is_type_list TypeList
          && is_binary_operation BinaryOperation TypeList Initial)
    then
      if is_same_v TypeList (type_list []) then Ok Initial
      else
        Rest <- member_type TypeList "rest" ;;
        First <- member_type TypeList "first" ;;
        Accumulator <- member_type Initial "type" ;;
        Next <- member_template BinaryOperation "type" [First; Accumulator] ;;
        match depth with
        | O => Error 1 instantiation_depth_exceeded
        | S d => nested (foldl d Rest BinaryOperation Next)
        end
    else Error 0 constraints_not_satisfied.
Proof. destruct depth; reflexivity. Qed.

Lemma binary_operation_empty (Op Init : type) :
  is_binary_operation Op (type_list []) Init = true.
Proof. unfold is_binary_operation. rewrite is_same_v_refl. apply orb_true_r. Qed.

Lemma foldl_empty (depth : nat) (Op Init : type) :
  foldl depth (type_list []) Op Init = Ok Init.
Proof.
  rewrite foldl_unfold, empty_is_type_list, binary_operation_empty.
  now rewrite requires_true, is_same_v_refl.
Qed.

Lemma foldl_node (d : nat) (T First Rest Op Init : type) :
  typename T "first" = Some First -> typename T "rest" = Some Rest ->
  TYPE_LIST_CXX20REQUIRES (is_binary_operation Op T Init) = true ->
  foldl (S d) T Op Init
  = (Accumulator <- member_type Init "type" ;;
     Next <- member_template Op "type" [First; Accumulator] ;;
     nested (foldl d Rest Op Next)).
Proof.
  intros HF HR HB. rewrite foldl_unfold.
  rewrite (node_is_type_list _ _ _ HF HR). cbn [andb]. rewrite HB.
  rewrite (node_not_empty _ _ HF), (member_type_some _ _ _ HR). cbn [bind].
  now rewrite (member_type_some _ _ _ HF).
Qed.

Lemma foldl_needs_type (depth : nat) (T First Op Init : type) :
  typename T "first" = Some First -> typename Init "type" = None ->
  exists (n : nat) (d : diagnostic), foldl depth T Op Init = Error n d.
Proof.
  intros HF HI. rewrite foldl_unfold.
  destruct (TYPE_LIST_CXX20REQUIRES _); [|eauto].
  rewrite (node_not_empty _ _ HF).
  destruct (member_type T "rest") as [Rest|]; [|cbn; eauto].
  rewrite (member_type_some _ _ _ HF). cbn [bind].
  unfold member_type. rewrite HI. cbn. eauto.
Qed.




Lemma foldl_inv (Op L : type) (Ts : list type) :
  chain L Ts ->
  forall (depth : nat) (Init R : type),
    foldl depth L Op Init = Ok R -> fold_types Op Ts Init = Some R.
Proof.
  induction 1 as [|T First Rest Ts HF HR _ IH]; intros depth Init R H.
  - rewrite foldl_empty in H. now injection H as <-.
  - rewrite foldl_unfold in H.
    destruct (TYPE_LIST_CXX20REQUIRES _); [|discriminate].
    rewrite (node_not_empty _ _ HF), (member_type_some _ _ _ HR) in H.
    cbn [bind] in H. rewrite (member_type_some _ _ _ HF) in H.
    cbn [bind] in H. unfold member_type in H. cbn [fold_types].
    destruct (typename Init "type") as [Acc|]; [|discriminate].
    cbn [bind] in H. unfold member_template in H. unfold combine.
    destruct (typename_template Op "type" [First; Acc]) as [Next|];
      [|discriminate].
    cbn [bind] in H. destruct depth as [|d]; [discriminate|].
    destruct (foldl d Rest Op Next) as [R'|] eqn:HR'; [|discriminate].
    injection H as <-. now apply (IH d).
Qed.

Lemma fold_types_own_type (Op : type) :
  (forall Element Accumulator Next : type,
      combine Op Element Accumulator = Some Next ->
      typename Next "type" = Some Next) ->
  forall (Ts : list type) (Init : type),
    typename Init "type" = Some Init ->
    fold_types Op Ts Init = foldl_as_specified Op Ts Init.
Proof.
  intros Hown. induction Ts as [|T Ts IH]; intros Init HI; [reflexivity|].
  cbn [fold_types foldl_as_specified]. rewrite HI.
  destruct (combine Op T Init) as [Next|] eqn:HN; [|reflexivity].
  apply IH. eapply Hown, HN.
Qed.

Lemma foldl_make_step (d : nat) (a : type) (Ts : list type)
  (Op Init Accumulator Next : type) :
  typename Init "type" = Some Accumulator ->
  combine Op a Accumulator = Some Next ->
  TYPE_LIST_CXX20REQUIRES (is_binary_operation Op (make (a :: Ts)) Init) = true ->
  foldl (S d) (make (a :: Ts)) Op Init = nested (foldl d (make Ts) Op Next).
Proof.
  intros HI HN HB.
  rewrite (foldl_node d (make (a :: Ts)) a (make Ts) Op Init eq_refl eq_refl HB).
  rewrite (member_type_some _ _ _ HI). cbn [bind]. unfold combine in HN.
  now rewrite (member_template_some _ _ _ _ HN).
Qed.

(** ** Lists whose tail is not a list *)

Lemma size_rejects (depth : nat) (T : type) :
  202002 <= cplusplus -> is_type_list T = false ->
  size depth T = Error 0 constraints_not_satisfied.
Proof.
  intros Hc HT. destruct depth; simpl; now rewrite requires_cxx20, HT.
Qed.

Lemma contains_rejects (depth : nat) (T Element : type) :
  202002 <= cplusplus -> is_type_list T = false ->
  contains depth T Element = Error 0 constraints_not_satisfied.
Proof.
  intros Hc HT. destruct depth; simpl; now rewrite requires_cxx20, HT.
Qed.

Lemma equal_rejects (depth : nat) (T U : type) :
  202002 <= cplusplus -> is_type_list T = false ->
  equal depth T U = Error 0 constraints_not_satisfied
  /\ equal depth U T = Error 0 constraints_not_satisfied.
Proof.
  intros Hc HT.
  split; rewrite equal_unfold, requires_cxx20, HT by assumption;
    [reflexivity | now rewrite andb_false_r].
Qed.

Lemma transform_rejects (depth : nat) (T Op : type) :
  202002 <= cplusplus -> is_type_list T = false ->
  transform depth T Op = Error 0 constraints_not_satisfied.
Proof.
  intros Hc HT. now rewrite transform_unfold, requires_cxx20, HT.
Qed.

Lemma foldl_rejects (depth : nat) (T Op Init : type) :
  202002 <= cplusplus -> is_type_list T = false ->
  foldl depth T Op Init = Error 0 constraints_not_satisfied.
Proof.
  intros Hc HT. now rewrite foldl_unfold, requires_cxx20, HT.
Qed.

Lemma size_bad_tail (T Bad : type) (n : nat) :
  tail_at T n Bad ->
  forall depth : nat,
    202002 <= cplusplus -> is_type_list Bad = false -> (n <= depth)%nat ->
    size depth T = Error n constraints_not_satisfied.
Proof.
  induction 1 as [T|T First Rest U n HF HR _ IH]; intros depth Hc HB Hd.
  - now apply size_rejects.
  - destruct depth as [|d]; [lia|].
    rewrite (size_node _ _ _ _ HF HR), IH by (assumption || lia).
    reflexivity.
Qed.

Lemma contains_bad_tail (T Bad : type) (n : nat) :
  tail_at T n Bad ->
  forall (depth : nat) (Element : type),
    202002 <= cplusplus -> is_type_list Bad = false -> (n <= depth)%nat ->
    contains depth T Element = Error n constraints_not_satisfied.
Proof.
  induction 1 as [T|T First Rest U n HF HR _ IH]; intros depth E Hc HB Hd.
  - now apply contains_rejects.
  - destruct depth as [|d]; [lia|].
    rewrite (contains_node _ _ _ _ _ HF HR), IH by (assumption || lia).
    reflexivity.
Qed.

Lemma Forall2_nth_error (P : type -> type -> Prop) (Ts Us : list type) :
  Forall2 P Ts Us ->
  forall (i : nat) (T : type),
    nth_error Ts i = Some T ->
    exists U : type, nth_error Us i = Some U /\ P T U.
Proof.
  induction 1 as [|T0 U0 Ts Us HP _ IH]; intros [|i] T H; try discriminate H.
  - injection H as <-. now exists U0.
  - now apply IH.
Qed.

(** ** The claims *)

(** C1. For every sequence of types [Ts], [make Ts] is the list of
    these elements, no more, in this order: [make []] is the empty list,
    the first node of [make (T :: Ts')] has head [T] and tail
    [make Ts'], and [size (make Ts)] is the number of elements (given
    that the compiler allows that many nested instantiations and
    [size_t] can hold the number); the size of [make []] is 0. *)
Theorem make_size (Ts : list type) (depth : nat) :
  make [] = type_list []
  /\ (forall (T : type) (Ts' : list type),
        make (T :: Ts') = type_list [T; make Ts']
        /\ typename (make (T :: Ts')) "first" = Some T
        /\ typename (make (T :: Ts')) "rest" = Some (make Ts'))
  /\ chain (make Ts) Ts
  /\ (forall Us : list type, chain (make Ts) Us -> Us = Ts)
  /\ ((length Ts <= depth)%nat ->
      Z.of_nat (length Ts) < 2 ^ size_t_bits ->
      size depth (make Ts) = Ok (Z.of_nat (length Ts)))
  /\ size depth (make []) = Ok 0.
Proof.
  repeat split.
  - apply chain_make.
  - intros Us HU. apply (chain_functional _ _ _ HU (chain_make Ts)).
  - apply size_chain, chain_make.
  - apply size_empty.
Qed.

(** C2, amended. For every list [L] and unary operation [Op] such that
    [Op] applied to each element of [L] has a member [type],
    [transform L Op] is a list of the same length as [L] whose [i]-th
    element is that member [type] of [Op] applied to the [i]-th element of
    [L], order preserved; it is [Op] applied to the element itself where
    that is its own member [type].  [transform] of the empty list is the
    empty list, and wherever [transform L Op] is well-formed its size is
    the size of [L]. *)
Theorem transform_spec (L Op : type) (Ts Us : list type) (depth : nat) :
  chain L Ts ->
  (length Ts <= depth)%nat ->
  Forall2 (fun T U => applied_type Op T = Some U) Ts Us ->
  transform depth L Op = Ok (make Us)
  /\ chain (make Us) Us
  /\ length Us = length Ts
  /\ (forall (i : nat) (T : type),
        nth_error Ts i = Some T ->
        exists U : type, applied_type Op T = Some U /\ nth_error Us i = Some U)
  /\ ((forall T Applied : type,
         In T Ts -> applied Op T = Some Applied ->
         typename Applied "type" = Some Applied) ->
      Forall2 (fun T U => applied Op T = Some U) Ts Us)
  /\ (forall (d : nat) (L' : type),
        transform d L Op = Ok L' -> forall d' : nat, size d' L' = size d' L)
  /\ transform depth (type_list []) Op = Ok (type_list []).
Proof.
  intros HL Hd HU. repeat split.
  - now apply transform_chain with (Ts := Ts).
  - apply chain_make.
  - symmetry. eapply Forall2_length, HU.
  - intros i T Hi.
    destruct (Forall2_nth_error _ _ _ HU i T Hi) as (U & HUi & HA). eauto.
  - intros Hown. clear HL Hd. induction HU as [|T U Ts Us HA _ IH];
      constructor.
    + apply applied_type_inv in HA as (A & HA & HT).
      rewrite (Hown T A (or_introl eq_refl) HA) in HT. congruence.
    + apply IH. intros T' A' HIn. apply Hown. now right.
  - intros d L' HT d'.
    destruct (transform_inv _ _ _ HL _ _ HT) as (Us' & -> & HU').
    apply size_same_length with (Ts := Us') (Us := Ts);
      [apply chain_make | assumption |].
    symmetry. eapply Forall2_length, HU'.
  - apply transform_empty.
Qed.

(** C3, amended. [foldl] folds left to right, the binary operation
    receiving (element, member [type] of the accumulator):
    foldl(node, Op, Init) = foldl(node.tail, Op, Op(node.head, Init::type)),
    so foldl(make(a,b,c), combine, init) is
    combine(c, combine(b, combine(a, init::type)::type)::type).  Where
    [init] and every result of [combine] are their own member [type], this
    is combine(c, combine(b, combine(a, init))). *)
Theorem foldl_left_to_right (Op init : type) (depth : nat) :
  (forall T First Rest Accumulator Next : type,
      typename T "first" = Some First -> typename T "rest" = Some Rest ->
      typename init "type" = Some Accumulator ->
      combine Op First Accumulator = Some Next ->
      TYPE_LIST_CXX20REQUIRES (is_binary_operation Op T init) = true ->
      foldl (S depth) T Op init = nested (foldl depth Rest Op Next))
  /\ (forall (L R : type) (Ts : list type),
        chain L Ts -> foldl depth L Op init = Ok R ->
        fold_types Op Ts init = Some R)
  /\ (forall a b c i0 r1 i1 r2 i2 r3 : type,
        typename init "type" = Some i0 -> combine Op a i0 = Some r1 ->
        typename r1 "type" = Some i1 -> combine Op b i1 = Some r2 ->
        typename r2 "type" = Some i2 -> combine Op c i2 = Some r3 ->
        TYPE_LIST_CXX20REQUIRES
          (is_binary_operation Op (make [a; b; c]) init) = true ->
        TYPE_LIST_CXX20REQUIRES
          (is_binary_operation Op (make [b; c]) r1) = true ->
        TYPE_LIST_CXX20REQUIRES
          (is_binary_operation Op (make [c]) r2) = true ->
        foldl (3 + depth) (make [a; b; c]) Op init = Ok r3)
  /\ ((forall Element Accumulator Next : type,
         combine Op Element Accumulator = Some Next ->
         typename Next "type" = Some Next) ->
      typename init "type" = Some init ->
      forall Ts : list type,
        fold_types Op Ts init = foldl_as_specified Op Ts init).
Proof.
  repeat split.
  - intros T First Rest Acc Next HF HR HI HN HB.
    rewrite (foldl_node _ _ _ _ _ _ HF HR HB), (member_type_some _ _ _ HI).
    cbn [bind]. unfold combine in HN.
    now rewrite (member_template_some _ _ _ _ HN).
  - intros L R Ts HL H. eapply foldl_inv; eauto.
  - intros a b c i0 r1 i1 r2 i2 r3 H0 H1 H2 H3 H4 H5 B1 B2 B3.
    cbn [Nat.add].
    rewrite (foldl_make_step _ _ _ _ _ _ _ H0 H1 B1).
    rewrite (foldl_make_step _ _ _ _ _ _ _ H2 H3 B2).
    rewrite (foldl_make_step _ _ _ _ _ _ _ H4 H5 B3).
    cbn [make]. now rewrite foldl_empty.
  - intros Hown HI Ts. now apply fold_types_own_type.
Qed.

(** C4. For all lists [A] and [B], [equal A B] is true iff [A] and [B]
    have the same length and the elements at each position are identical;
    [equal] of the empty list with itself is true, of the empty list and a
    node (either way round) false, and [equal L L] is true for every
    list [L]. *)
Theorem equal_spec (A B : type) (As Bs : list type) (depth : nat) :
  chain A As -> chain B Bs ->
  (Nat.min (length As) (length Bs) <= depth)%nat ->
  (exists b : bool,
      equal depth A B = Ok b
      /\ (b = true
          <-> length As = length Bs
              /\ forall (i : nat) (T U : type),
                   nth_error As i = Some T -> nth_error Bs i = Some U -> T = U))
  /\ equal depth (type_list []) (type_list []) = Ok true
  /\ (forall T First Rest : type,
        typename T "first" = Some First -> typename T "rest" = Some Rest ->
        equal depth (type_list []) T = Ok false
        /\ equal depth T (type_list []) = Ok false)
  /\ ((length As <= depth)%nat -> equal depth A A = Ok true).
Proof.
  intros HA HB Hd. split; [|split; [|split]].
  - exists (same_elements As Bs). split.
    + now apply equal_chain.
    + rewrite same_elements_true. apply positionwise_identical.
  - apply equal_empty_empty.
  - apply equal_empty_node.
  - intros Hd'. rewrite (equal_chain _ _ HA _ _ _ HA) by lia.
    f_equal. now apply same_elements_true.
Qed.

(** C5. For every sequence [Ts], [contains (make Ts) Ti] is true for each
    element [Ti] of [Ts] and [contains (make Ts) X] is false for every
    type [X] not among [Ts]; membership is identity of types: a class is
    not found through another class of a different name, whatever their
    members.  [contains] of the empty list is false. *)
Theorem contains_spec (Ts : list type) (depth : nat) :
  (length Ts <= depth)%nat ->
  (forall (i : nat) (Ti : type),
      nth_error Ts i = Some Ti -> contains depth (make Ts) Ti = Ok true)
  /\ (forall X : type, ~ In X Ts -> contains depth (make Ts) X = Ok false)
  /\ (forall (n m : string) (args : list type),
        n <> m ->
        contains (S depth) (make [Class n args]) (Class m args) = Ok false)
  /\ (forall E : type, contains depth (type_list []) E = Ok false).
Proof.
  intros Hd. repeat split.
  - intros i Ti Hi. rewrite (contains_chain _ _ (chain_make Ts)) by assumption.
    f_equal. apply existsb_is_same_v. eapply nth_error_In, Hi.
  - intros X HX. rewrite (contains_chain _ _ (chain_make Ts)) by assumption.
    f_equal. apply not_true_is_false. now rewrite existsb_is_same_v.
  - intros n m args Hnm.
    rewrite (contains_chain _ _ (chain_make [Class n args]))
      by (cbn [length]; lia).
    f_equal. apply not_true_is_false. rewrite existsb_is_same_v.
    intros [H|[]]. congruence.
  - apply contains_empty.
Qed.

(** C6. Identity law: for every binary operation [Op] and every initial
    accumulator [Init], [foldl] of the empty list is [Init] unchanged. *)
Theorem foldl_identity (depth : nat) (Op Init : type) :
  foldl depth (make []) Op Init = Ok Init.
Proof. apply foldl_empty. Qed.

(** C7. For every list [L] and unary operation [Op], the [i]-th element
    of [transform L Op] is the member [type] of [Op] applied to the [i]-th
    element of [L], not [Op] applied to it; so [Op] applied to each
    element of [L] must have a member [type], and the element of the
    result is [Op] applied to the element exactly when that is its own
    member [type]. *)
Theorem transform_member_type (L Op : type) (Ts : list type) (depth : nat) :
  chain L Ts ->
  (forall L' : type,
      transform depth L Op = Ok L' ->
      exists Us : list type,
        L' = make Us
        /\ length Us = length Ts
        /\ forall (i : nat) (T : type),
             nth_error Ts i = Some T ->
             exists Applied U : type,
               applied Op T = Some Applied
               /\ typename Applied "type" = Some U
               /\ nth_error Us i = Some U
               /\ (U = Applied <-> typename Applied "type" = Some Applied))
  /\ (forall T Applied : type,
        In T Ts -> applied Op T = Some Applied ->
        typename Applied "type" = None ->
        exists (n : nat) (d : diagnostic), transform depth L Op = Error n d)
  /\ (forall Us : list type,
        (length Ts <= depth)%nat ->
        Forall2 (fun T U => applied_type Op T = Some U) Ts Us ->
        transform depth L Op = Ok (make Us)).
Proof.
  intros HL.
  assert (Hinv : forall L' : type,
             transform depth L Op = Ok L' ->
             exists Us : list type,
               L' = make Us
               /\ Forall2 (fun T U => applied_type Op T = Some U) Ts Us)
    by (intros L'; apply transform_inv, HL).
  split; [|split].
  - intros L' H. destruct (Hinv L' H) as (Us & -> & HU).
    exists Us. split; [reflexivity|]. split.
    + symmetry. eapply Forall2_length, HU.
    + intros i T Hi.
      destruct (Forall2_nth_error _ _ _ HU i T Hi) as (U & HUi & HA).
      apply applied_type_inv in HA as (A & HA & HT).
      exists A, U. repeat split; try assumption; congruence.
  - intros T A HIn HA HT.
    destruct (transform depth L Op) as [L'|n d] eqn:H; [|eauto].
    destruct (Hinv L' eq_refl) as (Us & _ & HU).
    apply In_nth_error in HIn as (i & Hi).
    destruct (Forall2_nth_error _ _ _ HU i T Hi) as (U & _ & HA').
    unfold applied_type in HA'. rewrite HA in HA'. congruence.
  - intros Us Hd HU. now apply transform_chain with (Ts := Ts).
Qed.

(** The step of [foldl] where its requires-clause holds, which is always
    so before C++20: the binary operation is given the member [type] of
    [Initial], not [Initial]; [foldl (make [a]) Op Init] is [Op] applied to
    [a] and [Init::type]; the initial and every intermediate accumulator
    must have a member [type]; for the empty list [foldl] is [Init] as it
    is, with or without such a member. *)
Theorem foldl_initial_type (Op Init : type) (depth : nat) :
  (forall T First Rest : type,
      typename T "first" = Some First -> typename T "rest" = Some Rest ->
      TYPE_LIST_CXX20REQUIRES (is_binary_operation Op T Init) = true ->
      foldl (S depth) T Op Init
      = (Accumulator <- member_type Init "type" ;;
         Next <- member_template Op "type" [First; Accumulator] ;;
         nested (foldl depth Rest Op Next)))
  /\ (forall a : type,
        TYPE_LIST_CXX20REQUIRES (is_binary_operation Op (make [a]) Init) = true ->
        foldl (S depth) (make [a]) Op Init
        = (Accumulator <- member_type Init "type" ;;
           member_template Op "type" [a; Accumulator]))
  /\ (forall a R : type,
        foldl depth (make [a]) Op Init = Ok R ->
        exists Accumulator : type,
          typename Init "type" = Some Accumulator
          /\ combine Op a Accumulator = Some R)
  /\ (forall T First : type,
        typename T "first" = Some First -> typename Init "type" = None ->
        exists (n : nat) (d : diagnostic), foldl depth T Op Init = Error n d)
  /\ (forall T First Rest Second Accumulator Next : type,
        typename T "first" = Some First -> typename T "rest" = Some Rest ->
        typename Rest "first" = Some Second ->
        typename Init "type" = Some Accumulator ->
        combine Op First Accumulator = Some Next ->
        typename Next "type" = None ->
        exists (n : nat) (d : diagnostic), foldl depth T Op Init = Error n d)
  /\ foldl depth (type_list []) Op Init = Ok Init.
Proof.
  split; [|split; [|split; [|split; [|split]]]].
  - intros T First Rest HF HR HB. now apply foldl_node.
  - intros a HB.
    rewrite (foldl_node depth (make [a]) a (make []) Op Init eq_refl eq_refl HB).
    destruct (member_type Init "type") as [Acc|]; [|reflexivity].
    cbn [bind]. destruct (member_template Op "type" [a; Acc]); [|reflexivity].
    cbn [bind make]. now rewrite foldl_empty.
  - intros a R H.
    apply (foldl_inv _ _ _ (chain_make [a])) in H. cbn [fold_types] in H.
    destruct (typename Init "type") as [Acc|]; [|discriminate].
    exists Acc. split; [reflexivity|].
    destruct (combine Op a Acc) as [Next|]; [assumption | discriminate].
  - intros T First HF HI. eapply foldl_needs_type; eauto.
  - intros T First Rest Second Acc Next HF HR HS HI HN HT.
    rewrite foldl_unfold.
    destruct (TYPE_LIST_CXX20REQUIRES _); [|eauto].
    rewrite (node_not_empty _ _ HF), (member_type_some _ _ _ HR). cbn [bind].
    rewrite (member_type_some _ _ _ HF). cbn [bind].
    rewrite (member_type_some _ _ _ HI). cbn [bind].
    unfold combine in HN. rewrite (member_template_some _ _ _ _ HN).
    cbn [bind]. destruct depth as [|d]; [eauto|].
    destruct (foldl_needs_type d Rest Second Op Next HS HT) as (n & dg & ->).
    cbn [nested]. eauto.
  - apply foldl_empty.
Qed.

(** C9, amended. Compiled as C++20 or later, every public operation
    ([size], [contains], [equal], [transform], [foldl]) checks its list
    parameter with [is_type_list] and rejects, at the template-id that was
    written, an argument that is neither the empty list nor a type with
    members [first] and [rest].  The check looks at that one node only:
    where the tail [n] nodes down is such an argument, [size] and
    [contains] are rejected by the same check [n] instantiations below. *)
Theorem malformed_list_rejected (Bad : type) (depth : nat) :
  202002 <= cplusplus ->
  is_type_list Bad = false ->
  size depth Bad = Error 0 constraints_not_satisfied
  /\ (forall E : type,
        contains depth Bad E = Error 0 constraints_not_satisfied)
  /\ (forall U : type,
        equal depth Bad U = Error 0 constraints_not_satisfied
        /\ equal depth U Bad = Error 0 constraints_not_satisfied)
  /\ (forall Op : type,
        transform depth Bad Op = Error 0 constraints_not_satisfied)
  /\ (forall Op Init : type,
        foldl depth Bad Op Init = Error 0 constraints_not_satisfied)
  /\ (forall (T : type) (n : nat),
        tail_at T n Bad -> (n <= depth)%nat ->
        size depth T = Error n constraints_not_satisfied
        /\ forall E : type,
             contains depth T E = Error n constraints_not_satisfied).
Proof.
  intros Hc HB. split; [|split; [|split; [|split; [|split]]]].
  - now apply size_rejects.
  - intros E. now apply contains_rejects.
  - intros U. now apply equal_rejects.
  - intros Op. now apply transform_rejects.
  - intros Op Init. now apply foldl_rejects.
  - intros T n HT Hn. split.
    + now apply size_bad_tail with (Bad := Bad).
    + intros E. now apply contains_bad_tail with (Bad := Bad).
Qed.

(** C10. For the empty list the constraints on the operation of
    [transform] and [foldl] hold whatever type is given as the operation,
    also one without any member [type]: the result is the empty list for
    [transform] and the initial accumulator for [foldl], whatever the
    operation would give. *)
Theorem empty_list_any_operation (Op Init : type) (depth : nat) :
  is_unary_operation Op (type_list []) = true
  /\ is_binary_operation Op (type_list []) Init = true
  /\ TYPE_LIST_CXX20REQUIRES
       (is_type_list (type_list []) && is_unary_operation Op (type_list []))
     = true
  /\ TYPE_LIST_CXX20REQUIRES
       (is_type_list (type_list [])
        && is_binary_operation Op (type_list []) Init)
     = true
  /\ transform depth (type_list []) Op = Ok (type_list [])
  /\ foldl depth (type_list []) Op Init = Ok Init
  /\ transform depth (type_list []) (Fundamental "void") = Ok (type_list [])
  /\ foldl depth (type_list []) (Fundamental "void") Init = Ok Init.
Proof.
  repeat split.
  - apply unary_operation_empty.
  - apply binary_operation_empty.
  - apply requires_true.
    now rewrite empty_is_type_list, unary_operation_empty.
  - apply requires_true.
    now rewrite empty_is_type_list, binary_operation_empty.
  - apply transform_empty.
  - apply foldl_empty.
  - apply transform_empty.
  - apply foldl_empty.
Qed.

(** ** Further properties of the header *)

Lemma make_injective (Ts Us : list type) : make Ts = make Us -> Ts = Us.
Proof.
  revert Us. induction Ts as [|T Ts IH]; intros [|U Us] H;
    try discriminate H; [reflexivity|].
  cbn [make] in H. injection H as -> H. f_equal. now apply IH.
Qed.

Lemma same_elements_sym (Ts Us : list type) :
  same_elements Ts Us = same_elements Us Ts.
Proof.
  unfold same_elements.
  destruct (list_eq_dec type_eq_dec Ts Us), (list_eq_dec type_eq_dec Us Ts);
    congruence.
Qed.

Lemma equal_true_node (depth : nat) (A B : type) :
  equal depth A B = Ok true ->
  (A = type_list [] /\ B = type_list [])
  \/ exists (d : nat) (First Rest1 Rest2 : type),
       depth = S d
       /\ typename A "first" = Some First /\ typename A "rest" = Some Rest1
       /\ typename B "first" = Some First /\ typename B "rest" = Some Rest2
       /\ equal d Rest1 Rest2 = Ok true.
Proof.
  intros H. rewrite equal_unfold in H.
  destruct (TYPE_LIST_CXX20REQUIRES _); [|discriminate].
  destruct (is_same_v A (type_list [])) eqn:HA,
           (is_same_v B (type_list [])) eqn:HB; try discriminate.
  - left. now apply is_same_v_true in HA, HB.
  - right. unfold member_type in H.
    destruct (typename A "first") as [F1|] eqn:HF1; [|discriminate].
    destruct (typename B "first") as [F2|] eqn:HF2; [|discriminate].
    destruct (typename A "rest") as [R1|] eqn:HR1; [|discriminate].
    destruct (typename B "rest") as [R2|] eqn:HR2; [|discriminate].
    cbn [bind] in H. destruct depth as [|d]; [discriminate|].
    destruct (equal d R1 R2) as [b|] eqn:HE; [|discriminate].
    cbn [nested bind] in H. injection H as H.
    apply andb_true_iff in H as [HF ->]. apply is_same_v_true in HF. subst F2.
    exists d, F1, R1, R2. now repeat split.
Qed.

Lemma equal_true_lists (depth : nat) :
  forall A B : type,
    equal depth A B = Ok true ->
    exists Ts : list type,
      chain A Ts /\ chain B Ts /\ (length Ts <= depth)%nat.
Proof.
  induction depth as [|d IH]; intros A B H;
    destruct (equal_true_node _ _ _ H)
      as [[-> ->]|(d' & F & R1 & R2 & Hd & HF1 & HR1 & HF2 & HR2 & HE)].
  - exists []. repeat split; [constructor | constructor | apply Nat.le_0_l].
  - discriminate Hd.
  - exists []. repeat split; [constructor | constructor | apply Nat.le_0_l].
  - injection Hd as <-. destruct (IH _ _ HE) as (Ts & H1 & H2 & Hl).
    exists (F :: Ts). repeat split.
    + now apply chain_node with (Rest := R1).
    + now apply chain_node with (Rest := R2).
    + cbn [length]. lia.
Qed.

(** X1. [equal] answers true only for two lists with the same elements:
    whatever the two types are, a true result means that both are chains of
    nodes ending in the empty list, with identical elements in the same
    order, no longer than the depth of instantiation used. *)
Theorem equal_true_only_on_lists (depth : nat) (A B : type) :
  equal depth A B = Ok true ->
  exists Ts : list type,
    chain A Ts /\ chain B Ts /\ (length Ts <= depth)%nat.
Proof. apply equal_true_lists. Qed.

(** X2. On any two or three types, [equal] is symmetric and transitive
    where it answers true. *)
Theorem equal_symmetric_transitive (depth : nat) (A B : type) :
  equal depth A B = Ok true ->
  equal depth B A = Ok true
  /\ forall C : type, equal depth B C = Ok true -> equal depth A C = Ok true.
Proof.
  intros H. destruct (equal_true_lists _ _ _ H) as (Ts & HA & HB & Hl). split.
  - rewrite (equal_chain _ _ HB _ _ _ HA) by lia.
    f_equal. now apply same_elements_true.
  - intros C HC. destruct (equal_true_lists _ _ _ HC) as (Us & HB' & HC' & _).
    rewrite (chain_functional _ _ _ HB' HB) in HC'.
    rewrite (equal_chain _ _ HA _ _ _ HC') by lia.
    f_equal. now apply same_elements_true.
Qed.

(** X3. [make] is injective, and on two lists built by [make], [equal]
    agrees with [std::is_same_v]: the lists are equal exactly when they are
    the same type. *)
Theorem equal_make_is_same (depth : nat) (Ts Us : list type) :
  (Nat.min (length Ts) (length Us) <= depth)%nat ->
  (make Ts = make Us <-> Ts = Us)
  /\ equal depth (make Ts) (make Us) = Ok (is_same_v (make Ts) (make Us)).
Proof.
  intros Hd. split.
  - split; [apply make_injective | now intros ->].
  - rewrite (equal_chain _ _ (chain_make Ts) _ _ _ (chain_make Us)) by assumption.
    f_equal. destruct (is_same_v (make Ts) (make Us)) eqn:H.
    + apply same_elements_true, make_injective. now apply is_same_v_true.
    + apply not_true_is_false. rewrite same_elements_true. intros ->.
      now rewrite is_same_v_refl in H.
Qed.

Lemma contains_ok_node (depth : nat) (T Element : type) (b : bool) :
  contains depth T Element = Ok b ->
  (T = type_list [] /\ b = false)
  \/ exists (d : nat) (First Rest : type) (b' : bool),
       depth = S d
       /\ typename T "first" = Some First /\ typename T "rest" = Some Rest
       /\ contains d Rest Element = Ok b'
       /\ b = (is_same_v Element First || b').
Proof.
  intros H. destruct depth as [|d]; simpl in H;
    (destruct (TYPE_LIST_CXX20REQUIRES _); [|discriminate]);
    destruct (is_same_v T (type_list [])) eqn:HT;
    try (left; apply is_same_v_true in HT; injection H as <-; now split);
    unfold member_type in H;
    (destruct (typename T "first") as [F|] eqn:HF; [|discriminate]);
    (destruct (typename T "rest") as [R|] eqn:HR; [|discriminate]);
    cbn [bind] in H; [discriminate|].
  right. destruct (contains d R Element) as [b'|] eqn:HC; [|discriminate].
  cbn [nested bind] in H. injection H as <-.
  exists d, F, R, b'. now repeat split.
Qed.

Lemma contains_lists (depth : nat) :
  forall (T Element : type) (b : bool),
    contains depth T Element = Ok b ->
    exists Ts : list type,
      chain T Ts /\ (length Ts <= depth)%nat
      /\ b = existsb (is_same_v Element) Ts.
Proof.
  induction depth as [|d IH]; intros T E b H;
    destruct (contains_ok_node _ _ _ _ H)
      as [[-> ->]|(d' & F & R & b' & Hd & HF & HR & HC & ->)].
  - exists []. repeat split; [constructor | apply Nat.le_0_l].
  - discriminate Hd.
  - exists []. repeat split; [constructor | apply Nat.le_0_l].
  - injection Hd as <-. destruct (IH _ _ _ HC) as (Ts & H1 & Hl & ->).
    exists (F :: Ts). repeat split.
    + now apply chain_node with (Rest := R).
    + cbn [length]. lia.
Qed.

(** X4. [contains] gives an answer only on a list: whatever the type, a
    result means that the type is a chain of nodes ending in the empty
    list, and the result tells whether the element is among its
    elements. *)
Theorem contains_only_on_lists (depth : nat) :
  forall (T Element : type) (b : bool),
    contains depth T Element = Ok b ->
    exists Ts : list type,
      chain T Ts /\ (length Ts <= depth)%nat
      /\ b = existsb (is_same_v Element) Ts
      /\ (b = true <-> In Element Ts).
Proof.
  intros T E b H.
  destruct (contains_lists depth T E b H) as (Ts & H1 & Hl & ->).
  exists Ts. repeat split; try assumption; apply existsb_is_same_v.
Qed.

Lemma size_ok_node (depth : nat) (T : type) (n : Z) :
  202002 <= cplusplus ->
  size depth T = Ok n ->
  (T = type_list [] /\ n = 0)
  \/ exists (d : nat) (First Rest : type) (v : Z),
       depth = S d
       /\ typename T "first" = Some First /\ typename T "rest" = Some Rest
       /\ size d Rest = Ok v /\ n = (1 + v) mod 2 ^ size_t_bits.
Proof.
  intros Hc H. destruct depth as [|d]; simpl in H;
    rewrite (requires_cxx20 _ Hc) in H;
    (destruct (is_type_list T) eqn:HL; [|discriminate]);
    destruct (is_same_v T (type_list [])) eqn:HT;
    try (left; apply is_same_v_true in HT; injection H as <-; now split);
    unfold member_type in H;
    (destruct (typename T "rest") as [R|] eqn:HR; [|discriminate]);
    cbn [bind] in H; [discriminate|].
  right. destruct (size d R) as [v|] eqn:HS; [|discriminate].
  cbn [nested bind] in H. injection H as <-.
  unfold is_type_list in HL. rewrite HT, HR, orb_false_r, andb_true_r in HL.
  destruct (typename T "first") as [F|] eqn:HF; [|discriminate].
  exists d, F, R, v. now repeat split.
Qed.

(** X5. Compiled as C++20 or later, [size] gives an answer only on a
    list, and the answer is the number of its nodes, reduced modulo
    2^[size_t_bits] as the sum in [size_t] is. *)
Theorem size_only_on_lists (depth : nat) :
  202002 <= cplusplus ->
  forall (T : type) (n : Z),
    size depth T = Ok n ->
    exists Ts : list type,
      chain T Ts /\ (length Ts <= depth)%nat
      /\ n = Z.of_nat (length Ts) mod 2 ^ size_t_bits.
Proof.
  intros Hc. induction depth as [|d IH]; intros T n H;
    destruct (size_ok_node _ _ _ Hc H)
      as [[-> ->]|(d' & F & R & v & Hd & HF & HR & HS & ->)].
  - exists []. repeat split; [constructor | apply Nat.le_0_l].
  - discriminate Hd.
  - exists []. repeat split; [constructor | apply Nat.le_0_l].
  - injection Hd as <-. destruct (IH _ _ HS) as (Ts & H1 & Hl & ->).
    exists (F :: Ts). repeat split.
    + now apply chain_node with (Rest := R).
    + cbn [length]. lia.
    + cbn [length]. rewrite Nat2Z.inj_succ, Zplus_mod_idemp_r. f_equal. lia.
Qed.

Lemma transform_ok_node (depth : nat) (L Op L' : type) :
  transform depth L Op = Ok L' ->
  (L = type_list [] /\ L' = type_list [])
  \/ exists (d : nat) (First Rest Head Tail : type),
       depth = S d
       /\ typename L "first" = Some First /\ typename L "rest" = Some Rest
       /\ applied_type Op First = Some Head
       /\ transform d Rest Op = Ok Tail
       /\ L' = type_list [Head; Tail].
Proof.
  intros H. rewrite transform_unfold in H.
  destruct (TYPE_LIST_CXX20REQUIRES _); [|discriminate].
  destruct (is_same_v L (type_list [])) eqn:HL.
  - left. apply is_same_v_true in HL. injection H as <-. now split.
  - right. unfold member_type at 1 in H.
    destruct (typename L "first") as [F|] eqn:HF; [|discriminate].
    cbn [bind] in H. unfold member_template in H.
    destruct (typename_template Op "type" [F]) as [A|] eqn:HA; [|discriminate].
    cbn [bind] in H. unfold member_type at 1 in H.
    destruct (typename A "type") as [Head|] eqn:HH; [|discriminate].
    cbn [bind] in H. unfold member_type in H.
    destruct (typename L "rest") as [R|] eqn:HR; [|discriminate].
    cbn [bind] in H. destruct depth as [|d]; [discriminate|].
    destruct (transform d R Op) as [Tail|] eqn:HT; [|discriminate].
    cbn [nested bind] in H. injection H as <-.
    exists d, F, R, Head, Tail. repeat split; try assumption.
    unfold applied_type, applied. now rewrite HA.
Qed.

(** X6. [transform] gives a result only on a list, and the result is
    always a chain of [type_list] nodes, as [make] builds it, whatever
    classes the nodes of the argument are: its elements are the members
    [type] of the operation applied to the elements of the argument. *)
Theorem transform_only_on_lists (depth : nat) (Op : type) :
  forall L L' : type,
    transform depth L Op = Ok L' ->
    exists Ts Us : list type,
      chain L Ts /\ (length Ts <= depth)%nat
      /\ L' = make Us
      /\ Forall2 (fun T U => applied_type Op T = Some U) Ts Us.
Proof.
  induction depth as [|d IH]; intros L L' H;
    destruct (transform_ok_node _ _ _ _ H)
      as [[-> ->]|(d' & F & R & Hd & Tl & E & HF & HR & HA & HT & ->)].
  - exists [], []. repeat split; [constructor | apply Nat.le_0_l | constructor].
  - discriminate E.
  - exists [], []. repeat split; [constructor | apply Nat.le_0_l | constructor].
  - injection E as <-. destruct (IH _ _ HT) as (Ts & Us & H1 & Hl & -> & HU).
    exists (F :: Ts), (Hd :: Us). repeat split.
    + now apply chain_node with (Rest := R).
    + cbn [length]. lia.
    + now constructor.
Qed.

Lemma Forall2_In_l (P : type -> type -> Prop) (Ts Us : list type) :
  Forall2 P Ts Us ->
  forall T : type, In T Ts -> exists U : type, In U Us /\ P T U.
Proof.
  induction 1 as [|T0 U0 Ts Us HP _ IH]; intros T HT;
    [destruct HT|]; destruct HT as [HT|HT].
  - subst. exists U0. split; [now left | assumption].
  - destruct (IH T HT) as (U & HU & HPU). exists U. split; [now right | assumption].
Qed.

Lemma Forall2_In_r (P : type -> type -> Prop) (Ts Us : list type) :
  Forall2 P Ts Us ->
  forall U : type, In U Us -> exists T : type, In T Ts /\ P T U.
Proof.
  induction 1 as [|T0 U0 Ts Us HP _ IH]; intros U HU;
    [destruct HU|]; destruct HU as [HU|HU].
  - subst. exists T0. split; [now left | assumption].
  - destruct (IH U HU) as (T & HT & HPT). exists T. split; [now right | assumption].
Qed.

(** X7. [contains] after [transform]: a type is found in
    [transform L Op] exactly when it is the member [type] of [Op] applied
    to some element of [L]. *)
Theorem contains_transform (depth d : nat) (L L' Op X : type) (Ts : list type) :
  chain L Ts ->
  (length Ts <= depth)%nat ->
  transform d L Op = Ok L' ->
  exists b : bool,
    contains depth L' X = Ok b
    /\ (b = true <-> exists T : type, In T Ts /\ applied_type Op T = Some X).
Proof.
  intros HL Hd HT.
  destruct (transform_inv _ _ _ HL _ _ HT) as (Us & -> & HU).
  exists (existsb (is_same_v X) Us). split.
  - apply contains_chain; [apply chain_make|].
    now rewrite <- (Forall2_length HU).
  - rewrite existsb_is_same_v. split.
    + intros HX. now apply (Forall2_In_r _ _ _ HU).
    + intros (T & HT' & HA).
      destruct (Forall2_In_l _ _ _ HU T HT') as (U & HIn & HA').
      congruence.
Qed.

Lemma unchanged_elements (Op : type) (Ts Us : list type) :
  Forall2 (fun T U => applied_type Op T = Some U) Ts Us ->
  Ts = Us <-> forall T : type, In T Ts -> applied_type Op T = Some T.
Proof.
  induction 1 as [|T U Ts Us HA _ IH].
  - split; [intros _ T HT; destruct HT | reflexivity].
  - destruct IH as [IH1 IH2]. split.
    + intros E. injection E as <- E. specialize (IH1 E).
      intros T' HT'. destruct HT' as [<-|HT']; [assumption | now apply IH1].
    + intros Hall. f_equal.
      * specialize (Hall T (or_introl eq_refl)). congruence.
      * apply IH2. intros T' HT'. apply Hall. now right.
Qed.

(** X8. [equal] of a list and its [transform]: the answer is true exactly
    when the operation leaves every element as it is, hence false as soon as
    it changes one (main.cpp:80). *)
Theorem equal_transform (depth d : nat) (L L' Op : type) (Ts : list type) :
  chain L Ts ->
  (length Ts <= depth)%nat ->
  transform d L Op = Ok L' ->
  exists b : bool,
    equal depth L L' = Ok b
    /\ (b = true <-> forall T : type, In T Ts -> applied_type Op T = Some T).
Proof.
  intros HL Hd HT.
  destruct (transform_inv _ _ _ HL _ _ HT) as (Us & -> & HU).
  exists (same_elements Ts Us). split.
  - apply equal_chain; [assumption | apply chain_make | lia].
  - rewrite same_elements_true. now apply unchanged_elements.
Qed.

Lemma unary_operation_undefined (Op T First : type) :
  typename T "first" = Some First -> applied Op First = None ->
  is_unary_operation Op T = false.
Proof.
  unfold is_unary_operation, applied. intros HF HA. rewrite HF, HA.
  cbn [is_some]. now rewrite andb_false_r, (node_not_empty _ _ HF).
Qed.

(** X9. Where [transform] fails, it fails at the first element the
    operation does not fit, that many instantiations below the call: on an
    element the operation is not defined for, by the requires-clause from
    C++20 on and in the body before; on an element whose result has no
    member [type], in the body. *)
Theorem transform_error_located (Op T : type) (Pre Post : list type) :
  Forall (fun P => exists U : type, applied_type Op P = Some U) Pre ->
  forall (L : type) (depth : nat),
    chain L (Pre ++ T :: Post) ->
    (length Pre <= depth)%nat ->
    (applied Op T = None ->
     transform depth L Op
     = Error (length Pre)
         (if 202002 <=? cplusplus then constraints_not_satisfied
          else no_type_named Op "type"))
    /\ (forall Applied : type,
          applied Op T = Some Applied -> typename Applied "type" = None ->
          transform depth L Op = Error (length Pre) (no_type_named Applied "type")).
Proof.
  induction 1 as [|P Pre [U HP] _ IH]; intros L depth HL Hd.
  - cbn [app length] in *.
    inversion HL as [|? F R ? HF HR _]; subst. split.
    + intros HA. rewrite transform_unfold.
      rewrite (unary_operation_undefined _ _ _ HF HA), andb_false_r.
      unfold TYPE_LIST_CXX20REQUIRES. destruct (202002 <=? cplusplus);
        [reflexivity|].
      rewrite (node_not_empty _ _ HF), (member_type_some _ _ _ HF). cbn [bind].
      unfold member_template. unfold applied in HA. now rewrite HA.
    + intros A HA HT. rewrite transform_unfold.
      rewrite (node_is_type_list _ _ _ HF HR), (unary_operation_node _ _ _ _ HF HA).
      rewrite requires_true by reflexivity.
      rewrite (node_not_empty _ _ HF), (member_type_some _ _ _ HF). cbn [bind].
      unfold applied in HA. rewrite (member_template_some _ _ _ _ HA). cbn [bind].
      unfold member_type. now rewrite HT.
  - cbn [app length] in *.
    inversion HL as [|? F R ? HF HR HC]; subst.
    apply applied_type_inv in HP as (A & HA & HH).
    destruct depth as [|d]; [lia|].
    rewrite (transform_node _ _ _ _ _ _ _ HF HR HA HH).
    destruct (IH R d HC) as [IH1 IH2]; [lia|]. split.
    + intros HN. now rewrite (IH1 HN).
    + intros A' HA' HT'. now rewrite (IH2 A' HA' HT').
Qed.

(** ** foldl on lists of any length *)

Lemma requires_andb (x y : bool) :
  TYPE_LIST_CXX20REQUIRES (x && y) = true
  <-> TYPE_LIST_CXX20REQUIRES x = true /\ TYPE_LIST_CXX20REQUIRES y = true.
Proof.
  unfold TYPE_LIST_CXX20REQUIRES.
  destruct (202002 <=? cplusplus); [apply andb_true_iff | tauto].
Qed.

Lemma binary_operation_of_node (Op T First Init : type) :
  typename T "first" = Some First ->
  is_binary_operation Op T Init
  = referenceable Op && referenceable Init
    && is_some (typename_template Op "type" [Init; First]).
Proof.
  intros HF. unfold is_binary_operation.
  now rewrite HF, (node_not_empty _ _ HF), orb_false_r.
Qed.

Lemma foldl_ok_node (depth : nat) (L Op Init R : type) :
  foldl depth L Op Init = Ok R ->
  (L = type_list [] /\ R = Init)
  \/ exists (d : nat) (First Rest Accumulator Next : type),
       depth = S d
       /\ typename L "first" = Some First /\ typename L "rest" = Some Rest
       /\ typename Init "type" = Some Accumulator
       /\ combine Op First Accumulator = Some Next
       /\ TYPE_LIST_CXX20REQUIRES (is_binary_operation Op L Init) = true
       /\ foldl d Rest Op Next = Ok R.
Proof.
  intros H. rewrite foldl_unfold in H.
  destruct (TYPE_LIST_CXX20REQUIRES (_ && _)) eqn:HQ; [|discriminate].
  apply requires_andb in HQ as [_ HQ].
  destruct (is_same_v L (type_list [])) eqn:HL.
  - left. apply is_same_v_true in HL. injection H as <-. now split.
  - right. unfold member_type at 1 in H.
    destruct (typename L "rest") as [Rest|] eqn:HR; [|discriminate].
    cbn [bind] in H. unfold member_type at 1 in H.
    destruct (typename L "first") as [F|] eqn:HF; [|discriminate].
    cbn [bind] in H. unfold member_type in H.
    destruct (typename Init "type") as [Acc|] eqn:HI; [|discriminate].
    cbn [bind] in H. unfold member_template in H.
    destruct (typename_template Op "type" [F; Acc]) as [Next|] eqn:HN;
      [|discriminate].
    cbn [bind] in H. destruct depth as [|d]; [discriminate|].
    destruct (foldl d Rest Op Next) as [R'|] eqn:HF'; [|discriminate].
    cbn [nested] in H. injection H as <-.
    exists d, F, Rest, Acc, Next. now repeat split.
Qed.

Lemma foldl_chain (Op L : type) (Ts : list type) :
  chain L Ts ->
  forall (depth : nat) (Init R : type),
    (length Ts <= depth)%nat ->
    fold_types Op Ts Init = Some R ->
    TYPE_LIST_CXX20REQUIRES (fold_checked Op Ts Init) = true ->
    foldl depth L Op Init = Ok R.
Proof.
  induction 1 as [|T First Rest Ts HF HR _ IH]; intros depth Init R Hd HT HC.
  - rewrite foldl_empty. cbn [fold_types] in HT. now injection HT as <-.
  - cbn [length] in Hd. destruct depth as [|d]; [lia|].
    cbn [fold_types fold_checked] in HT, HC.
    destruct (typename Init "type") as [Acc|] eqn:HI; [|discriminate].
    destruct (combine Op First Acc) as [Next|] eqn:HN; [|discriminate].
    apply requires_andb in HC as [HC1 HC2].
    rewrite <- (binary_operation_of_node _ _ _ _ HF) in HC1.
    rewrite (foldl_node _ _ _ _ _ _ HF HR HC1), (member_type_some _ _ _ HI).
    cbn [bind]. unfold combine in HN.
    rewrite (member_template_some _ _ _ _ HN). cbn [bind].
    now rewrite (IH d Next R) by (assumption || lia).
Qed.

Lemma foldl_checked (Op L : type) (Ts : list type) :
  chain L Ts ->
  forall (depth : nat) (Init R : type),
    foldl depth L Op Init = Ok R ->
    TYPE_LIST_CXX20REQUIRES (fold_checked Op Ts Init) = true.
Proof.
  induction 1 as [|T First Rest Ts HF HR _ IH]; intros depth Init R H.
  - now apply requires_true.
  - destruct (foldl_ok_node _ _ _ _ _ H)
      as [[-> _]|(d & F & R' & Acc & Next & _ & HF' & HR' & HI & HN & HQ & HR'')].
    + discriminate HF.
    + rewrite HF in HF'. rewrite HR in HR'.
      injection HF' as <-. injection HR' as <-.
      cbn [fold_checked]. rewrite HI, HN. apply requires_andb. split.
      * now rewrite <- (binary_operation_of_node _ _ _ _ HF).
      * eapply IH, HR''.
Qed.

(** X10. For a list of any length, [foldl] is well-formed with result [R]
    exactly when the fold of the elements, each step taking the member
    [type] of its accumulator, gives [R] and, from C++20 on, the
    requires-clause holds at each step; that clause asks for the operation
    on (accumulator, element), the other way round from the step. *)
Theorem foldl_well_formed_iff (depth : nat) (L Op Init R : type) (Ts : list type) :
  chain L Ts ->
  (length Ts <= depth)%nat ->
  foldl depth L Op Init = Ok R
  <-> fold_types Op Ts Init = Some R
      /\ TYPE_LIST_CXX20REQUIRES (fold_checked Op Ts Init) = true.
Proof.
  intros HL Hd. split.
  - intros H. split; [eapply foldl_inv | eapply foldl_checked]; eauto.
  - intros [HT HC]. now apply foldl_chain with (Ts := Ts).
Qed.

(** X11. [foldl] gives a result only on a list: whatever the type, a
    result means that the type is a chain of nodes ending in the empty
    list, no longer than the depth of instantiation used, and the result
    is the fold of its elements. *)
Theorem foldl_only_on_lists (depth : nat) (Op : type) :
  forall L Init R : type,
    foldl depth L Op Init = Ok R ->
    exists Ts : list type,
      chain L Ts /\ (length Ts <= depth)%nat
      /\ fold_types Op Ts Init = Some R.
Proof.
  induction depth as [|d IH]; intros L Init R H;
    destruct (foldl_ok_node _ _ _ _ _ H)
      as [[-> ->]|(d' & F & Rest & Acc & Next & E & HF & HR & HI & HN & _ & HR')].
  - exists []. repeat split; [constructor | apply Nat.le_0_l].
  - discriminate E.
  - exists []. repeat split; [constructor | apply Nat.le_0_l].
  - injection E as <-. destruct (IH _ _ _ HR') as (Ts & H1 & Hl & HT).
    exists (F :: Ts). repeat split.
    + now apply chain_node with (Rest := Rest).
    + cbn [length]. lia.
    + cbn [fold_types]. now rewrite HI, HN.
Qed.

(** ** main.cpp on lists of any length *)

Lemma maximum_from (vs : list Z) :
  forall m : Z,
    m <= fold_left (fun accumulator v => Z.max v accumulator) vs m
    /\ forall v : Z,
         In v vs -> v <= fold_left (fun accumulator v => Z.max v accumulator) vs m.
Proof.
  induction vs as [|v0 vs IH]; intros m; cbn [fold_left].
  - split; [lia | intros v HV; destruct HV].
  - destruct (IH (Z.max v0 m)) as [H1 H2]. split; [lia|].
    intros v HV. destruct HV as [<-|HV]; [lia | now apply H2].
Qed.

Lemma applied_type_size (L T : type) :
  declares ["type_characteristics::type_size"] main_cpp ->
  applied_type (type_size_of L) T = option_map (integral_constant size_t) (sizeof T).
Proof.
  intros H. unfold applied_type, applied, typename_template, lookup, type_size_of.
  rewrite (H _ (or_introl eq_refl)).
  change (main_cpp "type_characteristics::type_size" [L] "type")
    with (template (fun Ts =>
            match Ts with
            | [U] => option_map (integral_constant size_t) (sizeof U)
            | _ => None
            end)).
  cbv beta iota. now destruct (sizeof T).
Qed.

Lemma applied_type_align (L T : type) :
  declares ["type_characteristics::type_align"] main_cpp ->
  applied_type (type_align_of L) T = option_map (integral_constant size_t) (alignof T).
Proof.
  intros H. unfold applied_type, applied, typename_template, lookup, type_align_of.
  rewrite (H _ (or_introl eq_refl)).
  change (main_cpp "type_characteristics::type_align" [L] "type")
    with (template (fun Ts =>
            match Ts with
            | [U] => option_map (integral_constant size_t) (alignof U)
            | _ => None
            end)).
  cbv beta iota. now destruct (alignof T).
Qed.

Lemma max_value_applied (L : type) (v w : Z) :
  declares ["type_characteristics::max_value"] main_cpp ->
  typename_template (max_value_of L) "type"
    [integral_constant size_t v; integral_constant size_t w]
  = Some (integral_constant size_t (Z.max v w)).
Proof.
  intros H. unfold typename_template, lookup, max_value_of.
  now rewrite (H _ (or_introl eq_refl)).
Qed.

Lemma fold_max_value (L : type) (vs : list Z) :
  declares ["type_characteristics::max_value"] main_cpp ->
  forall m : Z,
    fold_types (max_value_of L) (map (integral_constant size_t) vs)
      (integral_constant size_t m)
    = Some (integral_constant size_t
              (fold_left (fun accumulator v => Z.max v accumulator) vs m))
    /\ fold_checked (max_value_of L) (map (integral_constant size_t) vs)
         (integral_constant size_t m) = true.
Proof.
  intros H. induction vs as [|v vs IH]; intros m; [now split|].
  cbn [map fold_types fold_checked fold_left]. unfold combine.
  change (typename (integral_constant size_t m) "type")
    with (Some (integral_constant size_t m)).
  rewrite !(max_value_applied _ _ _ H). cbn [is_some].
  destruct (IH (Z.max v m)) as [IH1 IH2]. rewrite IH1, IH2. now split.
Qed.

Lemma transform_sizes (L Op : type) (Ts : list type) (f : type -> option Z)
  (vs : list Z) :
  (forall T : type, applied_type Op T = option_map (integral_constant size_t) (f T)) ->
  chain L Ts ->
  Forall2 (fun T v => f T = Some v) Ts vs ->
  forall depth : nat,
    (length Ts <= depth)%nat ->
    transform depth L Op = Ok (make (map (integral_constant size_t) vs)).
Proof.
  intros HA HL HV depth Hd. apply transform_chain with (Ts := Ts); try assumption.
  clear HL Hd. induction HV as [|T v Ts vs HT _ IH]; constructor; [|assumption].
  now rewrite HA, HT.
Qed.

(** X12. [type_characteristics<TypeList>] (main.cpp:6-36): for a list of
    types whose sizes and alignments are known, [largest] is the
    [integral_constant] of the greatest size of an element, [most_aligned]
    that of the greatest alignment, each 0 for the empty list and not less
    than the value of any element. *)
Theorem type_characteristics_maximum (depth : nat) (L : type)
  (Ts : list type) (sizes alignments : list Z) :
  declares ["type_characteristics::type_size";
            "type_characteristics::type_align";
            "type_characteristics::max_value"] main_cpp ->
  chain L Ts ->
  Forall2 (fun T v => sizeof T = Some v) Ts sizes ->
  Forall2 (fun T v => alignof T = Some v) Ts alignments ->
  (length Ts < depth)%nat ->
  type_characteristics depth L
  = Ok {| largest := integral_constant size_t (maximum sizes);
          most_aligned := integral_constant size_t (maximum alignments) |}
  /\ (forall v : Z, In v sizes -> v <= maximum sizes)
  /\ (forall v : Z, In v alignments -> v <= maximum alignments)
  /\ (Ts = [] -> maximum sizes = 0 /\ maximum alignments = 0).
Proof.
  intros HD HL HS HA Hd.
  assert (D1 : declares ["type_characteristics::type_size"] main_cpp)
    by (intros n [<-|[]]; apply HD; cbn; tauto).
  assert (D2 : declares ["type_characteristics::type_align"] main_cpp)
    by (intros n [<-|[]]; apply HD; cbn; tauto).
  assert (D3 : declares ["type_characteristics::max_value"] main_cpp)
    by (intros n [<-|[]]; apply HD; cbn; tauto).
  split; [|split; [|split]].
  - unfold type_characteristics.
    rewrite (requires_true _ (chain_is_type_list _ _ HL)).
    destruct depth as [|d]; [lia|].
    rewrite (transform_sizes L _ Ts sizeof sizes
               (fun T => applied_type_size L T D1) HL HS d) by lia.
    cbn [bind].
    rewrite (transform_sizes L _ Ts alignof alignments
               (fun T => applied_type_align L T D2) HL HA d) by lia.
    cbn [bind].
    destruct (fold_max_value L sizes D3 0) as [F1 C1].
    destruct (fold_max_value L alignments D3 0) as [F2 C2].
    rewrite (foldl_chain _ _ _ (chain_make _) d _ _
               ltac:(rewrite length_map, <- (Forall2_length HS); lia)
               F1 (requires_true _ C1)).
    cbn [bind].
    rewrite (foldl_chain _ _ _ (chain_make _) d _ _
               ltac:(rewrite length_map, <- (Forall2_length HA); lia)
               F2 (requires_true _ C2)).
    reflexivity.
  - apply (maximum_from sizes 0).
  - apply (maximum_from alignments 0).
  - intros ->. inversion HS. inversion HA. now split.
Qed.

Lemma applied_type_add_one (v : Z) :
  declares ["add_one"] main_cpp ->
  applied_type add_one (integral_constant unsigned v)
  = Some (integral_constant unsigned ((v + 1) mod 2 ^ 32)).
Proof.
  intros H. unfold applied_type, applied, typename_template, lookup, add_one.
  now rewrite (H _ (or_introl eq_refl)).
Qed.

(** X13. [transform] with [add_one] (main.cpp:45-49) on a list of
    [integral_constant<unsigned, v>] gives the list of the successors in
    [unsigned], the greatest value wrapping to 0; the result is never
    [equal] to a list that has an element. *)
Theorem transform_add_one (depth : nat) (vs : list Z) :
  declares ["add_one"] main_cpp ->
  (length vs <= depth)%nat ->
  transform depth (make (map (integral_constant unsigned) vs)) add_one
  = Ok (make (map (fun v => integral_constant unsigned ((v + 1) mod 2 ^ 32)) vs))
  /\ (vs <> [] ->
      equal depth (make (map (integral_constant unsigned) vs))
        (make (map (fun v => integral_constant unsigned ((v + 1) mod 2 ^ 32)) vs))
      = Ok false).
Proof.
  intros HD Hd. split.
  - apply transform_chain with (Ts := map (integral_constant unsigned) vs).
    + apply chain_make.
    + now rewrite length_map.
    + clear Hd. induction vs as [|v vs IH]; constructor; [|assumption].
      now apply applied_type_add_one.
  - intros Hne.
    rewrite (equal_chain _ _ (chain_make _) _ _ _ (chain_make _))
      by (rewrite !length_map; lia).
    f_equal. apply not_true_is_false. rewrite same_elements_true.
    destruct vs as [|v vs]; [congruence|]. cbn [map]. intros E.
    injection E as E _.
    change (Z.pow_pos 2 32) with 4294967296 in E.
    pose proof (Z.div_mod (v + 1) 4294967296 ltac:(lia)) as HM.
    pose proof (Z.mod_pos_bound (v + 1) 4294967296 ltac:(lia)) as HB.
    lia.
Qed.

End TypeList.

(** ** main.cpp

    The static assertions of [main] (main.cpp:57-80) and the two values
    show_type_characteristics prints (main.cpp:38-43), compiled as C++20
    with a 64-bit [size_t]. *)

Example main_size : size 202002 64 main_cpp 16 numbers = Ok 3.
Proof. reflexivity. Qed.

Example main_contains :
  contains 202002 main_cpp 16 numbers one = Ok true
  /\ contains 202002 main_cpp 16 numbers two = Ok true
  /\ contains 202002 main_cpp 16 numbers three = Ok true
  /\ contains 202002 main_cpp 16 numbers four = Ok false
  /\ contains 202002 main_cpp 16 numbers char = Ok false.
Proof. repeat split. Qed.

Example main_plus_one :
  transform 202002 main_cpp 16 numbers add_one = Ok (make [two; three; four])
  /\ contains 202002 main_cpp 16 (make [two; three; four]) one = Ok false
  /\ contains 202002 main_cpp 16 (make [two; three; four]) two = Ok true
  /\ contains 202002 main_cpp 16 (make [two; three; four]) three = Ok true
  /\ contains 202002 main_cpp 16 (make [two; three; four]) four = Ok true.
Proof. repeat split. Qed.

Example main_equal :
  equal 202002 main_cpp 16 numbers numbers = Ok true
  /\ equal 202002 main_cpp 16 numbers (make [one; two; three]) = Ok true
  /\ equal 202002 main_cpp 16 numbers (make [one; two]) = Ok false
  /\ equal 202002 main_cpp 16 numbers (make [one; two; three; four]) = Ok false
  /\ equal 202002 main_cpp 16 numbers (make [two; three; four]) = Ok false.
Proof. repeat split. Qed.

Example main_type_characteristics :
  (sizes_list <- transform 202002 main_cpp 16 types type_size ;;
   foldl 202002 main_cpp 16 sizes_list max_value (integral_constant size_t 0))
  = Ok (integral_constant size_t 8)
  /\ (alignments_type <- transform 202002 main_cpp 16 types type_align ;;
      foldl 202002 main_cpp 16 alignments_type max_value
        (integral_constant size_t 0))
     = Ok (integral_constant size_t 8).
Proof. split; reflexivity. Qed.

(** The requires-clause of [foldl] asks for
    [BinaryOperation::type<Initial, first>] (type_list.hpp:56-57) where the
    body names [BinaryOperation::type<first, Initial::type>]
    (type_list.hpp:174-175): an operation that reads its second argument
    only folds before C++20 and is refused from C++20 on. *)
Example is_binary_operation_argument_order :
  foldl 201703 traits 16 (make [char; int]) count (integral_constant size_t 0)
  = Ok (integral_constant size_t 2)
  /\ foldl 202002 traits 16 (make [char; int]) count (integral_constant size_t 0)
     = Error 0 constraints_not_satisfied.
Proof. split; reflexivity. Qed.

(** ** The theorems at concrete lists *)

Lemma make_size_witness :
  (length [one; two; three] <= 3)%nat
  /\ Z.of_nat (length [one; two; three]) < 2 ^ 64
  /\ size 202002 64 main_cpp 3 (make [one; two; three]) = Ok 3.
Proof.
  split; [simpl; lia|]. split; [reflexivity|].
  apply (make_size 202002 64 main_cpp [one; two; three] 3);
    [simpl; lia | reflexivity].
Defined.

Lemma transform_spec_witness :
  chain traits (make [char; int]) [char; int]
  /\ (length [char; int] <= 2)%nat
  /\ Forall2 (fun T U => applied_type traits identity_of T = Some U)
       [char; int] [char; int]
  /\ transform 202002 traits 2 (make [char; int]) identity_of
     = Ok (make [char; int]).
Proof.
  assert (H1 : chain traits (make [char; int]) [char; int])
    by (repeat econstructor).
  assert (H2 : (length [char; int] <= 2)%nat) by (simpl; lia).
  assert (H3 : Forall2 (fun T U => applied_type traits identity_of T = Some U)
                 [char; int] [char; int]) by (repeat constructor).
  refine (conj H1 (conj H2 (conj H3 _))).
  apply (transform_spec 202002 64 traits _ _ _ _ 2 H1 H2 H3).
Defined.

Lemma foldl_left_to_right_witness :
  foldl 202002 traits 3 (make [char; int; long_long]) pair_with
    (type_identity unsigned)
  = Ok (type_identity
          (pair long_long (pair int (pair char unsigned)))).
Proof.
  pose proof (foldl_left_to_right 202002 traits pair_with
                (type_identity unsigned) 0) as (_ & _ & H & _).
  apply (H char int long_long
           unsigned
           (type_identity (pair char unsigned))
           (pair char unsigned)
           (type_identity (pair int (pair char unsigned)))
           (pair int (pair char unsigned))
           (type_identity (pair long_long (pair int (pair char unsigned)))));
    reflexivity.
Defined.

Lemma equal_spec_witness :
  chain main_cpp numbers [one; two; three]
  /\ chain main_cpp (make [one; two]) [one; two]
  /\ (Nat.min (length [one; two; three]) (length [one; two]) <= 2)%nat
  /\ equal 202002 main_cpp 2 (type_list []) (type_list []) = Ok true.
Proof.
  assert (H1 : chain main_cpp numbers [one; two; three])
    by (repeat econstructor).
  assert (H2 : chain main_cpp (make [one; two]) [one; two])
    by (repeat econstructor).
  assert (H3 : (Nat.min (length [one; two; three]) (length [one; two]) <= 2)%nat)
    by (simpl; lia).
  refine (conj H1 (conj H2 (conj H3 _))).
  apply (equal_spec 202002 main_cpp _ _ _ _ 2 H1 H2 H3).
Defined.

Lemma contains_spec_witness :
  (length [one; two; three] <= 3)%nat
  /\ contains 202002 main_cpp 3 (make [one; two; three]) two = Ok true.
Proof.
  assert (H : (length [one; two; three] <= 3)%nat) by (simpl; lia).
  split; [assumption|].
  pose proof (contains_spec 202002 main_cpp [one; two; three] 3 H) as (Hin & _).
  apply (Hin 1%nat). reflexivity.
Defined.

Lemma transform_member_type_witness :
  chain traits (make [char; int]) [char; int]
  /\ (exists (n : nat) (d : diagnostic),
         transform 202002 traits 2 (make [char; int]) twice = Error n d).
Proof.
  assert (H : chain traits (make [char; int]) [char; int])
    by (repeat econstructor).
  split; [assumption|].
  pose proof (transform_member_type 202002 traits _ twice _ 2 H) as (_ & Hno & _).
  apply (Hno char (pair char char)); [left|..]; reflexivity.
Defined.

Lemma foldl_initial_type_witness :
  foldl 202002 traits 1 (make [char]) pair_with (type_identity unsigned)
  = Ok (type_identity (pair char unsigned)).
Proof.
  pose proof (foldl_initial_type 202002 traits pair_with
                (type_identity unsigned) 0) as (_ & H & _).
  rewrite (H char eq_refl). reflexivity.
Defined.

Lemma malformed_list_rejected_witness :
  202002 <= 202002
  /\ is_type_list main_cpp char = false
  /\ size 202002 64 main_cpp 4 char = Error 0 constraints_not_satisfied.
Proof.
  assert (H1 : 202002 <= 202002) by lia.
  assert (H2 : is_type_list main_cpp char = false) by reflexivity.
  refine (conj H1 (conj H2 _)).
  pose proof (malformed_list_rejected 202002 64 main_cpp char 4 H1 H2) as (H & _).
  exact H.
Defined.

(** ** Where the code departs from the specification *)

(** C2 as stated fails: [identity_of] is defined on [int], and the element
    of [transform (make [int]) identity_of] is [int], the member [type] of
    [identity_of] applied to [int], not [std::type_identity<int>];
    [twice] is defined on [int] too, and [transform (make [int]) twice] is
    ill-formed. *)
Lemma transform_counterexample :
  applied traits identity_of int = Some (type_identity int)
  /\ transform_as_specified traits identity_of [int]
     = Some (make [type_identity int])
  /\ transform 202002 traits 1 (make [int]) identity_of = Ok (make [int])
  /\ make [int] <> make [type_identity int]
  /\ applied traits twice int = Some (pair int int)
  /\ transform 202002 traits 1 (make [int]) twice
     = Error 0 (no_type_named (pair int int) "type").
Proof. repeat split. discriminate. Qed.

(** C3 as stated fails: the fold of [make [char; int; long long]] with
    [pair_with] from [std::type_identity<unsigned>] is not
    combine(c, combine(b, combine(a, init))). *)
Lemma foldl_counterexample :
  foldl_as_specified traits pair_with [char; int; long_long]
    (type_identity unsigned)
  = Some (type_identity
            (pair long_long
               (type_identity
                  (pair int
                     (type_identity (pair char (type_identity unsigned)))))))
  /\ foldl 202002 traits 3 (make [char; int; long_long]) pair_with
       (type_identity unsigned)
     = Ok (type_identity (pair long_long (pair int (pair char unsigned))))
  /\ type_identity (pair long_long (pair int (pair char unsigned)))
     <> type_identity
          (pair long_long
             (type_identity
                (pair int
                   (type_identity (pair char (type_identity unsigned)))))).
Proof. repeat split. discriminate. Qed.

(** C8. From C++20 on the code departs from the claim: the step of
    [foldl] names [count::type<char, Init::type>], which is
    [integral_constant<size_t, 1>] for [Init] the constant 0 and is what
    [foldl (make [char]) count Init] gives before C++20; but the
    requires-clause of [foldl] asks for [count::type<Init, char>]
    (type_list.hpp:56-57), the arguments the other way round, which is no
    type, and [foldl] is refused at the call. *)
Theorem foldl_refused_from_cxx20 :
  typename traits (integral_constant size_t 0) "type"
  = Some (integral_constant size_t 0)
  /\ combine traits count char (integral_constant size_t 0)
     = Some (integral_constant size_t 1)
  /\ typename_template traits count "type" [integral_constant size_t 0; char]
     = None
  /\ is_binary_operation traits count (make [char]) (integral_constant size_t 0)
     = false
  /\ foldl 201703 traits 1 (make [char]) count (integral_constant size_t 0)
     = Ok (integral_constant size_t 1)
  /\ foldl 202002 traits 1 (make [char]) count (integral_constant size_t 0)
     = Error 0 constraints_not_satisfied.
Proof.
  split; [reflexivity|]. split; [reflexivity|]. split; [reflexivity|].
  split; [reflexivity|]. split; vm_compute; reflexivity.
Qed.

(** C9 as stated fails: [type_list<int, char>] is not a list, its tail
    being [char], yet it passes the check of [size], which is rejected one
    instantiation below; before C++20 nothing is checked, and
    [equal<char, type_list<>>] is even well-formed. *)
Lemma list_check_counterexample :
  ~ (exists Ts : list type, chain main_cpp (type_list [int; char]) Ts)
  /\ is_type_list main_cpp (type_list [int; char]) = true
  /\ size 202002 64 main_cpp 8 (type_list [int; char])
     = Error 1 constraints_not_satisfied
  /\ size 201703 64 main_cpp 8 (type_list [int; char])
     = Error 1 (no_type_named char "rest")
  /\ equal 201703 main_cpp 8 char (type_list []) = Ok false.
Proof.
  split; [|repeat split].
  intros [Ts H].
  inversion H as [|T First Rest Ts' HF HR HC]; subst.
  injection HR as <-.
  inversion HC as [|T First' Rest' Ts'' HF' HR' HC']; subst.
  discriminate HF'.
Qed.

(** ** The further properties at concrete lists *)

Lemma equal_true_only_on_lists_witness :
  equal 202002 main_cpp 3 numbers (make [one; two; three]) = Ok true
  /\ exists Ts : list type,
       chain main_cpp numbers Ts
       /\ chain main_cpp (make [one; two; three]) Ts
       /\ (length Ts <= 3)%nat.
Proof.
  assert (H : equal 202002 main_cpp 3 numbers (make [one; two; three]) = Ok true)
    by reflexivity.
  exact (conj H (equal_true_only_on_lists 202002 main_cpp 3 _ _ H)).
Defined.

Lemma equal_symmetric_transitive_witness :
  equal 201703 traits 2 (make [char; int]) (make [char; int]) = Ok true
  /\ equal 201703 traits 2 (make [char; int]) (make [char; int]) = Ok true.
Proof.
  assert (H : equal 201703 traits 2 (make [char; int]) (make [char; int])
              = Ok true) by reflexivity.
  split; [exact H|].
  exact (proj1 (equal_symmetric_transitive 201703 traits 2 _ _ H)).
Defined.

Lemma equal_make_is_same_witness :
  (Nat.min (length [one; two]) (length [one; two; three]) <= 2)%nat
  /\ equal 202002 main_cpp 2 (make [one; two]) (make [one; two; three])
     = Ok (is_same_v (make [one; two]) (make [one; two; three])).
Proof.
  assert (H : (Nat.min (length [one; two]) (length [one; two; three]) <= 2)%nat)
    by (simpl; lia).
  split; [exact H|].
  exact (proj2 (equal_make_is_same 202002 main_cpp 2 [one; two] [one; two; three] H)).
Defined.

Lemma contains_only_on_lists_witness :
  contains 202002 main_cpp 3 numbers two = Ok true
  /\ exists Ts : list type,
       chain main_cpp numbers Ts /\ (length Ts <= 3)%nat
       /\ true = existsb (is_same_v two) Ts
       /\ (true = true <-> In two Ts).
Proof.
  assert (H : contains 202002 main_cpp 3 numbers two = Ok true) by reflexivity.
  exact (conj H (contains_only_on_lists 202002 main_cpp 3 _ _ _ H)).
Defined.

Lemma size_only_on_lists_witness :
  202002 <= 202002
  /\ size 202002 64 main_cpp 3 numbers = Ok 3
  /\ exists Ts : list type,
       chain main_cpp numbers Ts /\ (length Ts <= 3)%nat
       /\ 3 = Z.of_nat (length Ts) mod 2 ^ 64.
Proof.
  assert (H1 : 202002 <= 202002) by lia.
  assert (H2 : size 202002 64 main_cpp 3 numbers = Ok 3) by reflexivity.
  exact (conj H1 (conj H2 (size_only_on_lists 202002 64 main_cpp 3 H1 _ _ H2))).
Defined.

Lemma transform_only_on_lists_witness :
  transform 202002 traits 2 (make [char; int]) identity_of = Ok (make [char; int])
  /\ exists Ts Us : list type,
       chain traits (make [char; int]) Ts /\ (length Ts <= 2)%nat
       /\ make [char; int] = make Us
       /\ Forall2 (fun T U => applied_type traits identity_of T = Some U) Ts Us.
Proof.
  assert (H : transform 202002 traits 2 (make [char; int]) identity_of
              = Ok (make [char; int])) by reflexivity.
  exact (conj H (transform_only_on_lists 202002 traits 2 _ _ _ H)).
Defined.

Lemma contains_transform_witness :
  chain main_cpp numbers [one; two; three]
  /\ (length [one; two; three] <= 3)%nat
  /\ transform 202002 main_cpp 3 numbers add_one = Ok (make [two; three; four])
  /\ exists b : bool,
       contains 202002 main_cpp 3 (make [two; three; four]) four = Ok b
       /\ (b = true
           <-> exists T : type,
                 In T [one; two; three]
                 /\ applied_type main_cpp add_one T = Some four).
Proof.
  assert (H1 : chain main_cpp numbers [one; two; three]) by (repeat econstructor).
  assert (H2 : (length [one; two; three] <= 3)%nat) by (simpl; lia).
  assert (H3 : transform 202002 main_cpp 3 numbers add_one
               = Ok (make [two; three; four])) by reflexivity.
  exact (conj H1 (conj H2 (conj H3
           (contains_transform 202002 main_cpp 3 3 _ _ _ four _ H1 H2 H3)))).
Defined.

Lemma equal_transform_witness :
  chain main_cpp numbers [one; two; three]
  /\ (length [one; two; three] <= 3)%nat
  /\ transform 202002 main_cpp 3 numbers add_one = Ok (make [two; three; four])
  /\ exists b : bool,
       equal 202002 main_cpp 3 numbers (make [two; three; four]) = Ok b
       /\ (b = true
           <-> forall T : type,
                 In T [one; two; three] -> applied_type main_cpp add_one T = Some T).
Proof.
  assert (H1 : chain main_cpp numbers [one; two; three]) by (repeat econstructor).
  assert (H2 : (length [one; two; three] <= 3)%nat) by (simpl; lia).
  assert (H3 : transform 202002 main_cpp 3 numbers add_one
               = Ok (make [two; three; four])) by reflexivity.
  exact (conj H1 (conj H2 (conj H3
           (equal_transform 202002 main_cpp 3 3 _ _ _ _ H1 H2 H3)))).
Defined.

Lemma transform_error_located_witness :
  Forall (fun P => exists U : type, applied_type main_cpp add_one P = Some U) [one]
  /\ chain main_cpp (make [one; char; two]) ([one] ++ char :: [two])
  /\ (length [one] <= 3)%nat
  /\ applied main_cpp add_one char = None
  /\ transform 202002 main_cpp 3 (make [one; char; two]) add_one
     = Error 1 constraints_not_satisfied.
Proof.
  assert (H1 : Forall (fun P => exists U : type,
                         applied_type main_cpp add_one P = Some U) [one])
    by (repeat constructor; exists two; reflexivity).
  assert (H2 : chain main_cpp (make [one; char; two]) ([one] ++ char :: [two]))
    by (repeat econstructor).
  assert (H3 : (length [one] <= 3)%nat) by (simpl; lia).
  assert (H4 : applied main_cpp add_one char = None) by reflexivity.
  refine (conj H1 (conj H2 (conj H3 (conj H4 _)))).
  exact (proj1 (transform_error_located 202002 main_cpp add_one char [one] [two]
                  H1 _ 3 H2 H3) H4).
Defined.

Lemma foldl_well_formed_iff_witness :
  chain traits (make [char; int]) [char; int]
  /\ (length [char; int] <= 2)%nat
  /\ (foldl 202002 traits 2 (make [char; int]) count (integral_constant size_t 0)
      = Ok (integral_constant size_t 2)
      <-> fold_types traits count [char; int] (integral_constant size_t 0)
          = Some (integral_constant size_t 2)
          /\ TYPE_LIST_CXX20REQUIRES 202002
               (fold_checked traits count [char; int] (integral_constant size_t 0))
             = true).
Proof.
  assert (H1 : chain traits (make [char; int]) [char; int])
    by (repeat econstructor).
  assert (H2 : (length [char; int] <= 2)%nat) by (simpl; lia).
  exact (conj H1 (conj H2
           (foldl_well_formed_iff 202002 traits 2 _ _ _ _ _ H1 H2))).
Defined.

Lemma foldl_only_on_lists_witness :
  foldl 202002 traits 1 (make [char]) pair_with (type_identity unsigned)
  = Ok (type_identity (pair char unsigned))
  /\ exists Ts : list type,
       chain traits (make [char]) Ts /\ (length Ts <= 1)%nat
       /\ fold_types traits pair_with Ts (type_identity unsigned)
          = Some (type_identity (pair char unsigned)).
Proof.
  assert (H : foldl 202002 traits 1 (make [char]) pair_with (type_identity unsigned)
              = Ok (type_identity (pair char unsigned))) by reflexivity.
  exact (conj H (foldl_only_on_lists 202002 traits 1 _ _ _ _ H)).
Defined.

Lemma type_characteristics_maximum_witness :
  type_characteristics 202002 main_cpp 5 types
  = Ok {| largest := integral_constant size_t 8;
          most_aligned := integral_constant size_t 8 |}.
Proof.
  assert (H1 : declares main_cpp
                 ["type_characteristics::type_size";
                  "type_characteristics::type_align";
                  "type_characteristics::max_value"] main_cpp)
    by (intros name _ args; reflexivity).
  assert (H2 : chain main_cpp types [char; long_long; int; unsigned])
    by (repeat econstructor).
  assert (H3 : Forall2 (fun T v => sizeof T = Some v)
                 [char; long_long; int; unsigned] [1; 8; 4; 4])
    by (repeat constructor).
  assert (H4 : Forall2 (fun T v => alignof T = Some v)
                 [char; long_long; int; unsigned] [1; 8; 4; 4])
    by (repeat constructor).
  assert (H5 : (length [char; long_long; int; unsigned] < 5)%nat)
    by (simpl; lia).
  exact (proj1 (type_characteristics_maximum 202002 main_cpp 5 types _ _ _
                  H1 H2 H3 H4 H5)).
Defined.

Lemma transform_add_one_witness :
  (length [4294967295; 7]%Z <= 2)%nat
  /\ transform 202002 main_cpp 2
       (make [integral_constant unsigned 4294967295; integral_constant unsigned 7])
       add_one
     = Ok (make [integral_constant unsigned 0; integral_constant unsigned 8]).
Proof.
  assert (H1 : declares main_cpp ["add_one"] main_cpp)
    by (intros name _ args; reflexivity).
  assert (H2 : (length [4294967295; 7]%Z <= 2)%nat) by (simpl; lia).
  split; [exact H2|].
  exact (proj1 (transform_add_one 202002 main_cpp 2 [4294967295; 7] H1 H2)).
Defined.
